(** * crteal/task: the task dispatch core of [main.py]

    A shallow embedding of the task server: the result builders, the action
    registry, the four action handlers and the dispatcher [run_task].

    Python values are the JSON values a decoded task can hold.  The handlers
    run in an exception/state monad over a [world]: a POSIX file system, the
    server's working directory and environment, and the log of spawned child
    processes.  What belongs to the Python runtime and the operating system
    rather than to the repository (codec tables, [json.dumps], the behaviour
    of a child process) is gathered in a [runtime] record the development is
    parametric in. *)

From Stdlib Require Import ZArith String Ascii List.
From Stdlib.Strings Require Import Byte.
From stdpp Require Import gmap strings pretty.

Set Warnings "-register-all".
Open Scope string_scope.

(** ** Python values *)

(** The values of a decoded JSON document ([Any] in the annotations of the
    source).  Numbers are integers; a dict is a finite map on string keys
    (insertion order is not tracked). *)
Inductive value : Type :=
  | VNone
  | VBool (b : bool)
  | VInt (z : Z)
  | VStr (s : string)
  | VList (l : list value)
  | VDict (d : gmap string value).

(** [bool(v)], as used by [if not v]. *)
Definition truthy (v : value) : bool :=
  match v with
  | VNone => false
  | VBool b => b
  | VInt z => negb (z =? 0)%Z
  | VStr s => match s with EmptyString => false | String _ _ => true end
  | VList l => match l with [] => false | _ :: _ => true end
  | VDict d => negb (size d =? 0)%nat
  end.

(** The exceptions the source raises itself ([ValueError], with the message
    of the source) and those raised by the library calls it makes. *)
Inductive exn : Type :=
  | ValueError (msg : string)
  | TypeError
  | AttributeError
  | LookupError
  | UnicodeEncodeError
  | FileExistsError
  | FileNotFoundError
  | NotADirectoryError
  | IsADirectoryError
  | OSError
  | CalledProcessError (returncode : Z).

(** [o.get(k, dflt)]: only a dict has a [get] method. *)
Definition py_get (o : value) (k : string) (dflt : value) : exn + value :=
  match o with
  | VDict d => inr (default dflt (d !! k))
  | _ => inl AttributeError
  end.

(** [fmt % (arg,)] for a format with one [%s]. *)
Fixpoint percent_s (fmt arg : string) : string :=
  match fmt with
  | String "%" (String "s" rest) => arg ++ rest
  | String c rest => String c (percent_s rest arg)
  | EmptyString => EmptyString
  end.

(** A string that holds the byte 0.  No C string does: the calls that hand
    a string to the operating system refuse it with [ValueError]. *)
Definition has_nul (s : string) : bool :=
  existsb (Ascii.eqb "000"%char) (list_ascii_of_string s).

(** [c in s] for a character. *)
Definition has_char (c : ascii) (s : string) : bool :=
  existsb (Ascii.eqb c) (list_ascii_of_string s).

(** ** Paths, after [pathlib.PurePosixPath] *)

Record PosixPath : Type := { root : string; tail : list string }.

(** [s.split('/')]. *)
Fixpoint split_slash (s : string) : list string :=
  match s with
  | EmptyString => [EmptyString]
  | String c r =>
      if Ascii.eqb c "/" then EmptyString :: split_slash r
      else match split_slash r with
           | h :: t => String c h :: t
           | [] => [String c EmptyString]
           end
  end.

(** [posixpath.splitroot]: a root of exactly two slashes is kept, any other
    run of leading slashes is one root. *)
Definition splitroot (s : string) : string * string :=
  match s with
  | String "/" (String "/" (String "/" r)) => ("/", String "/" (String "/" r))
  | String "/" (String "/" r) => ("//", r)
  | String "/" r => ("/", r)
  | _ => ("", s)
  end.

(** [Path(s)]: empty and [.] components are dropped. *)
Definition Path (s : string) : PosixPath :=
  let '(rt, rel) := splitroot s in
  {| root := rt;
     tail := filter (fun x => x <> "" /\ x <> ".") (split_slash rel) |}.

(** [str(p)]. *)
Definition path_str (p : PosixPath) : string :=
  match root p, tail p with
  | EmptyString, [] => "."
  | r, t => r ++ String.concat "/" t
  end.

(** [p.parent]: a path without components is its own parent. *)
Definition parent (p : PosixPath) : PosixPath :=
  match tail p with
  | [] => p
  | t => {| root := root p; tail := removelast t |}
  end.

(** The limits of the host on the bytes of one name and of a whole path,
    its closing byte 0 included. *)
Definition NAME_MAX : nat := 255.
Definition PATH_MAX : nat := 4096.

(** A name the file system can hold. *)
Definition valid_name (c : string) : bool :=
  negb (has_nul c) && (String.length c <=? NAME_MAX)%nat.

(** A path in its canonical spelling: absolute, with one leading slash,
    not through [..], of names the file system can hold, and within
    [PATH_MAX].  ([Path] has dropped repeated slashes and [.] already.) *)
Definition canonical (p : PosixPath) : bool :=
  String.eqb (root p) "/" &&
  forallb (fun c => negb (String.eqb c "..") && valid_name c) (tail p) &&
  (String.length (path_str p) <? PATH_MAX)%nat.

(** ** The world *)

(** A file system entry.  The file system is a finite map from paths to
    entries, each entry under the one canonical spelling of its path (see
    [canonical] below); it has directories and regular files only, no
    symbolic links and no permissions.  The library calls below look a path
    up under its own spelling: they say what the system does for a path
    spelled canonically, and the statements that depend on what a path
    names assume such a spelling.  A relative path, one through [..], or
    one with a name the system refuses is outside the model. *)
Inductive node : Type :=
  | File (content : list byte)
  | Dir.

(** A child process as handed to [execve]. *)
Record process : Type := {
  p_argv : list string;
  p_cwd : string;
  p_env : gmap string string
}.

Record world : Type := {
  w_fs : gmap string node;
  w_cwd : string;
  w_environ : gmap string string;
  w_spawned : list process
}.

Definition set_fs (w : world) (fs : gmap string node) : world :=
  {| w_fs := fs; w_cwd := w_cwd w; w_environ := w_environ w;
     w_spawned := w_spawned w |}.

Definition log_spawn (w : world) (p : process) : world :=
  {| w_fs := w_fs w; w_cwd := w_cwd w; w_environ := w_environ w;
     w_spawned := (w_spawned w ++ [p])%list |}.

(** What the Python runtime and the operating system provide. *)
Record runtime : Type := {
  (** the codec registry: the encoder registered under a name, which fails
      on text the encoding cannot represent *)
  lookup_codec : string -> option (string -> option (list byte));
  (** the locale's encoding, used by [open] for [encoding=None] *)
  locale_encoding : string;
  (** [str(v)] for a list or a dict *)
  str_container : value -> string;
  (** [json.dumps] *)
  json_dumps : value -> string;
  (** a child process run to completion on a file system: its exit status
      and the file system it leaves, or [None] when it never terminates *)
  run_child : process -> gmap string node -> option (Z * gmap string node);
  (** [d.items()]: the items of a mapping in the order they were inserted,
      which [value] does not track *)
  dict_items : gmap string value -> list (string * value);
  (** no codec is registered under a name that holds the byte 0 *)
  codec_names : forall name enc,
    lookup_codec name = Some enc -> has_nul name = false;
  (** the items of a mapping are its entries, each once *)
  dict_items_listing : forall d, dict_items d ≡ₚ map_to_list d
}.

(** ** The monad of the handlers *)

(** A computation returns a value, raises an exception, or blocks for ever. *)
Inductive outcome (A : Type) : Type :=
  | Ret (a : A) (w : world)
  | Raise (e : exn) (w : world)
  | Hang.
Arguments Ret {A} a w.
Arguments Raise {A} e w.
Arguments Hang {A}.

Definition io (A : Type) : Type := world -> outcome A.

Definition ret {A} (a : A) : io A := fun w => Ret a w.
Definition raise {A} (e : exn) : io A := fun w => Raise e w.
Definition bind {A B} (m : io A) (k : A -> io B) : io B :=
  fun w => match m w with
           | Ret a w' => k a w'
           | Raise e w' => Raise e w'
           | Hang => Hang
           end.
Definition lift {A} (r : exn + A) : io A :=
  match r with inl e => raise e | inr a => ret a end.

Notation "'let*' x ':=' m 'in' k" := (bind m (fun x => k))
  (at level 10, x name, m at level 100, k at level 200,
   format "'[v' 'let*'  x  ':='  m  'in' '/' k ']'").
Notation "m ';;;' k" := (bind m (fun _ => k))
  (at level 100, k at level 200, right associativity).


(** ** Library calls *)

(** [Path(v)]: only a string is accepted among JSON values. *)
Definition path_of_value (v : value) : exn + PosixPath :=
  match v with
  | VStr s => inr (Path s)
  | _ => inl TypeError
  end.

(** [p.exists()], for a path canonically spelled: the entry under that
    spelling, if any. *)
Definition path_exists (p : PosixPath) : io bool := fun w =>
  match w_fs w !! path_str p with
  | Some _ => Ret true w
  | None => Ret false w
  end.

(** [p.is_dir()]. *)
Definition is_dir (p : PosixPath) : io bool := fun w =>
  match w_fs w !! path_str p with
  | Some Dir => Ret true w
  | _ => Ret false w
  end.

(** [p.mkdir()], for a path canonically spelled: the entry must be new and
    its parent a directory. *)
Definition mkdir (p : PosixPath) : io unit := fun w =>
  match w_fs w !! path_str p with
  | Some _ => Raise FileExistsError w
  | None =>
      match w_fs w !! path_str (parent p) with
      | Some Dir => Ret tt (set_fs w (<[path_str p := Dir]> (w_fs w)))
      | Some (File _) => Raise NotADirectoryError w
      | None => Raise FileNotFoundError w
      end
  end.

(** The raw file of [open(p, 'w')], for a path canonically spelled: created
    when new (its parent must be a directory), truncated when it is a file
    already. *)
Definition open_raw_w (p : PosixPath) : io unit := fun w =>
  match w_fs w !! path_str p with
  | Some Dir => Raise IsADirectoryError w
  | Some (File _) => Ret tt (set_fs w (<[path_str p := File []]> (w_fs w)))
  | None =>
      match w_fs w !! path_str (parent p) with
      | Some Dir => Ret tt (set_fs w (<[path_str p := File []]> (w_fs w)))
      | Some (File _) => Raise NotADirectoryError w
      | None => Raise FileNotFoundError w
      end
  end.

(** [p.unlink()]. *)
Definition unlink (p : PosixPath) : io unit := fun w =>
  match w_fs w !! path_str p with
  | Some (File _) => Ret tt (set_fs w (delete (path_str p) (w_fs w)))
  | Some Dir => Raise IsADirectoryError w
  | None => Raise FileNotFoundError w
  end.

Fixpoint strict_prefix_b (l1 l2 : list string) : bool :=
  match l1, l2 with
  | [], _ :: _ => true
  | x :: l1', y :: l2' => String.eqb x y && strict_prefix_b l1' l2'
  | _, [] => false
  end.

(** [q] lies strictly below [p]. *)
Definition is_under (p q : PosixPath) : bool :=
  String.eqb (root p) (root q) && strict_prefix_b (tail p) (tail q).

(** [shutil.rmtree(p)]: everything below [p] goes, then [p] itself, which
    the system refuses for a path without components. *)
Definition rmtree (p : PosixPath) : io unit := fun w =>
  match w_fs w !! path_str p with
  | Some Dir =>
      let emptied :=
        filter (fun kv => is_under p (Path kv.1) = false) (w_fs w) in
      match tail p with
      | [] => Raise OSError (set_fs w emptied)
      | _ :: _ => Ret tt (set_fs w (delete (path_str p) emptied))
      end
  | Some (File _) => Raise NotADirectoryError w
  | None => Raise FileNotFoundError w
  end.

(** [l + r] for a list [l]: [r] must be a list too. *)
Definition list_add (l : list value) (r : value) : exn + list value :=
  match r with
  | VList r' => inr (l ++ r')%list
  | _ => inl TypeError
  end.

Definition str_value (v : value) : option string :=
  match v with
  | VStr s => Some s
  | _ => None
  end.

(** The argument vector of a child, converted item by item: every item
    must be a string, and one without the byte 0.  The first item that is
    not decides the exception. *)
Fixpoint str_list (l : list value) : exn + list string :=
  match l with
  | [] => inr []
  | v :: l' =>
      match str_value v with
      | None => inl TypeError
      | Some s =>
          if has_nul s then inl (ValueError "embedded null byte")
          else match str_list l' with
               | inr r => inr (s :: r)
               | inl e => inl e
               end
      end
  end.

Section Runtime.

Variable rt : runtime.

(** [str(v)], as [%s] formats a value. *)
Definition py_str (v : value) : string :=
  match v with
  | VNone => "None"
  | VBool true => "True"
  | VBool false => "False"
  | VInt z => pretty z
  | VStr s => s
  | VList _ | VDict _ => str_container rt v
  end.

(** An open text file: where it writes and how it encodes. *)
Record text_file : Type := {
  f_key : string;
  f_encode : string -> option (list byte)
}.

(** The [encoding] argument of [open]: a string without the byte 0, or
    [None]; checked before anything is opened. *)
Definition encoding_arg (encoding : value) : exn + string :=
  match encoding with
  | VNone => inr (locale_encoding rt)
  | VStr e =>
      if has_nul e then inl (ValueError "embedded null character")
      else inr e
  | _ => inl TypeError
  end.

(** [p.open(mode='w', encoding=encoding)]: the raw file is opened first,
    the codec is looked up after. *)
Definition open_w (p : PosixPath) (encoding : value) : io text_file :=
  let* name := lift (encoding_arg encoding) in
  open_raw_w p ;;;
  match lookup_codec rt name with
  | Some enc => ret {| f_key := path_str p; f_encode := enc |}
  | None => raise LookupError
  end.

(** [f.write(v)]: [v] must be a string the codec can encode; its bytes go
    after those already written. *)
Definition write (f : text_file) (v : value) : io unit :=
  match v with
  | VStr s =>
      match f_encode f s with
      | Some bs => fun w =>
          match w_fs w !! f_key f with
          | Some (File old) =>
              Ret tt (set_fs w (<[f_key f := File (old ++ bs)%list]> (w_fs w)))
          | _ => Raise OSError w
          end
      | None => raise UnicodeEncodeError
      end
  | _ => raise TypeError
  end.

(** The loop of [subprocess] over [env.items()]: a name that holds [=] is
    refused, then a value that is not a string; the first item refused
    decides the exception. *)
Fixpoint env_refusal (items : list (string * value)) : option exn :=
  match items with
  | [] => None
  | (name, v) :: rest =>
      if has_char "=" name then
        Some (ValueError "illegal environment variable name")
      else
        match str_value v with
        | None => Some TypeError
        | Some _ => env_refusal rest
        end
  end.

(** The [env] argument of [subprocess.run]: [None] inherits the server's
    environment, a mapping of strings replaces it. *)
Definition env_arg (env : value) (environ : gmap string string)
  : exn + gmap string string :=
  match env with
  | VNone => inr environ
  | VDict d =>
      match env_refusal (dict_items rt d) with
      | Some e => inl e
      | None => inr (omap str_value d)
      end
  | _ => inl AttributeError
  end.

(** The names and values of a replaced environment become C strings when
    the child is forked, after the argument vector has been converted. *)
Definition env_c_strings (env : value) : bool :=
  match env with
  | VDict d =>
      forallb (fun kv => negb (has_nul kv.1) &&
                         negb (has_nul (default "" (str_value kv.2))))
              (map_to_list d)
  | _ => true
  end.

(** The [cwd] argument of [subprocess.run]: [None] inherits the server's
    working directory, a string must be a C string within [PATH_MAX] that
    names a directory. *)
Definition cwd_arg (cwd : value) (w : world) : exn + string :=
  match cwd with
  | VNone => inr (w_cwd w)
  | VStr EmptyString => inl FileNotFoundError
  | VStr s =>
      if has_nul s then inl (ValueError "embedded null byte")
      else if (PATH_MAX <=? String.length s)%nat then inl OSError
      else
        match w_fs w !! path_str (Path s) with
        | Some Dir => inr s
        | Some (File _) => inl NotADirectoryError
        | None => inl FileNotFoundError
        end
  | _ => inl TypeError
  end.

(** [subprocess.run(args, cwd=cwd, env=env, shell=shell, check=check)] on a
    POSIX host.  With [shell=True] and a sequence for [args], the child is
    [/bin/sh -c args[0] args[1] ...].  The items of the environment are
    checked first, then the argument vector is converted, then the
    environment and the working directory become C strings; nothing is
    started when one of them is refused.  The call returns when the child
    has terminated; with [check=True] a non-zero exit status raises. *)
Definition subprocess_run (args : list value) (cwd env : value)
    (shell check : bool) : io unit := fun w =>
  match env_arg env (w_environ w) with
  | inl e => Raise e w
  | inr child_env =>
      match str_list args with
      | inl e => Raise e w
      | inr argv =>
          if negb (env_c_strings env) then
            Raise (ValueError "embedded null byte") w
          else
            match cwd_arg cwd w with
            | inl e => Raise e w
            | inr child_cwd =>
                let p := {| p_argv := if shell
                                      then (["/bin/sh"; "-c"] ++ argv)%list
                                      else argv;
                            p_cwd := child_cwd;
                            p_env := child_env |} in
                match run_child rt p (w_fs w) with
                | None => Hang
                | Some (code, fs') =>
                    if check && negb (code =? 0)%Z
                    then Raise (CalledProcessError code)
                               (set_fs (log_spawn w p) fs')
                    else Ret tt (set_fs (log_spawn w p) fs')
                end
            end
      end
  end.

(** ** The source: result builders *)

Definition DEFAULT_ENCODING : string := "utf-8".

Definition make_task_success (task : value) : io value :=
  let* id := lift (py_get task "id" VNone) in
  let* action := lift (py_get task "action" VNone) in
  ret (VDict {[ "id" := id; "action" := action; "success" := VBool true ]}).

Definition make_task_error (task : value) (type message : string)
  : io value :=
  let* id := lift (py_get task "id" VNone) in
  let* action := lift (py_get task "action" VNone) in
  ret (VDict {[ "id" := id;
                "action" := action;
                "success" := VBool false;
                "error" := VDict {[ "type" := VStr type;
                                    "message" := VStr message ]} ]}).

(** ** The source: action registry *)

Definition handler : Type := value -> io value.

(** [TASK_ACTION_HANDLERS] is passed explicitly: registration returns the
    updated table. *)
Definition register_task_action_handler (action : string) (h : handler)
    (TASK_ACTION_HANDLERS : gmap string handler)
  : exn + gmap string handler :=
  match TASK_ACTION_HANDLERS !! action with
  | Some _ =>
      inl (ValueError
             (percent_s
                "A handler for `%s` already exists. Actions must be unique."
                action))
  | None => inr (<[action := h]> TASK_ACTION_HANDLERS)
  end.

(** [action] is whatever the task holds under that key; a list or a dict
    cannot be hashed for the membership test. *)
Definition get_task_action_handler
    (TASK_ACTION_HANDLERS : gmap string handler) (action : value)
  : exn + handler :=
  if negb (truthy action) then
    inl (ValueError "`handler` must be specified")
  else
    match action with
    | VList _ | VDict _ => inl TypeError
    | VStr a =>
        match TASK_ACTION_HANDLERS !! a with
        | Some h => inr h
        | None =>
            inl (ValueError
                   (percent_s "A handler for `%s` does not exist."
                              (py_str action)))
        end
    | _ =>
        inl (ValueError
               (percent_s "A handler for `%s` does not exist."
                          (py_str action)))
    end.

(** ** The source: handlers *)

Definition task_file_create (task : value) : io value :=
  if negb (truthy task) then
    make_task_error task "argument" "`task` must be specified"
  else
    let* path := lift (py_get task "path" VNone) in
    let* task_path := lift (path_of_value path) in
    let* found := path_exists task_path in
    if found then
      make_task_error task "argument"
        (percent_s "A file or directory at path `%s` already exists"
                   (path_str task_path))
    else
      let* content := lift (py_get task "content" VNone) in
      (if negb (truthy content) then
         mkdir task_path
       else
         let* encoding :=
           lift (py_get content "encoding" (VStr DEFAULT_ENCODING)) in
         let* f := open_w task_path encoding in
         let* v := lift (py_get content "value" VNone) in
         write f v) ;;;
      make_task_success task.

Definition task_file_edit (task : value) : io value :=
  if negb (truthy task) then
    make_task_error task "argument" "`task` must be specified"
  else
    let* path := lift (py_get task "path" VNone) in
    let* task_path := lift (path_of_value path) in
    let* found := path_exists task_path in
    if negb found then
      make_task_error task "argument"
        (percent_s "A file or directory at path `%s` does not exist"
                   (path_str task_path))
    else
      let* isdir := is_dir task_path in
      if isdir then
        make_task_error task "argument"
          (percent_s "A directory at path `%s` already exists"
                     (path_str task_path))
      else
        let* content := lift (py_get task "content" VNone) in
        if negb (truthy content) then
          make_task_error task "argument"
            "`content` must exist for file editing"
        else
          let* encoding :=
            lift (py_get content "encoding" (VStr DEFAULT_ENCODING)) in
          let* f := open_w task_path encoding in
          let* v := lift (py_get content "value" VNone) in
          write f v ;;;
          make_task_success task.

Definition task_file_delete (task : value) : io value :=
  if negb (truthy task) then
    make_task_error task "argument" "`task` must be specified"
  else
    let* path := lift (py_get task "path" VNone) in
    let* task_path := lift (path_of_value path) in
    let* found := path_exists task_path in
    if negb found then
      make_task_error task "argument"
        (percent_s "A file or directory at path `%s` does not exist"
                   (path_str task_path))
    else
      let* isdir := is_dir task_path in
      (if isdir then rmtree task_path else unlink task_path) ;;;
      make_task_success task.

Definition SAFE_COMMANDS : list string := ["python"; "node"; "git"; "uv"].

(** [v in l] for a list of strings: only an equal string is a member. *)
Definition in_strings (v : value) (l : list string) : bool :=
  match v with
  | VStr s => existsb (String.eqb s) l
  | _ => false
  end.

Definition task_command_run (task : value) : io value :=
  if negb (truthy task) then
    make_task_error task "argument" "`task` must be specified"
  else
    let* cmd := lift (py_get task "command" VNone) in
    if negb (truthy cmd) then
      make_task_error task "argument" "A `command` must be specified"
    else if negb (in_strings cmd SAFE_COMMANDS) then
      make_task_error task "argument"
        (percent_s "The command `%s` is not currently available to run"
                   (py_str cmd))
    else
      let* cwd := lift (py_get task "path" VNone) in
      let* env := lift (py_get task "environment" VNone) in
      let* args := lift (py_get task "arguments" (VList [])) in
      let* argv := lift (list_add [cmd] args) in
      subprocess_run argv cwd env true true ;;;
      make_task_success task.

Definition TASKS : list (string * handler) :=
  [ ("file/create", task_file_create);
    ("file/edit", task_file_edit);
    ("file/delete", task_file_delete);
    ("command/run", task_command_run) ].

(** The registration loop run when the module is loaded, from the empty
    table. *)
Definition register_all (tasks : list (string * handler))
  : exn + gmap string handler :=
  foldl (fun acc '(action, h) =>
           match acc with
           | inr table => register_task_action_handler action h table
           | inl e => inl e
           end)
        (inr ∅) tasks.

(** ** The source: dispatcher *)

Definition run_task (TASK_ACTION_HANDLERS : gmap string handler)
    (task : value) : io string :=
  if negb (truthy task) then
    raise (ValueError "`task` must be specified")
  else
    let* id := lift (py_get task "id" VNone) in
    if negb (truthy id) then
      raise (ValueError "`task` must be have a `id` specified")
    else
      let* action := lift (py_get task "action" VNone) in
      let* h := lift (get_task_action_handler TASK_ACTION_HANDLERS action) in
      let* response := h task in
      ret (json_dumps rt response).

End Runtime.

(** ** Reading results *)

(** A field of a result envelope. *)
Definition field (r : value) (k : string) : option value :=
  match r with
  | VDict d => d !! k
  | _ => None
  end.

(** The envelope carries the [id] and [action] of the task [d]. *)
Definition correlates (d : gmap string value) (r : value) : Prop :=
  field r "id" = Some (default VNone (d !! "id")) /\
  field r "action" = Some (default VNone (d !! "action")).

Definition is_success (r : value) : Prop :=
  field r "success" = Some (VBool true) /\ field r "error" = None.

(** An error envelope of kind [type] with message [message]. *)
Definition is_error (r : value) (type message : string) : Prop :=
  field r "success" = Some (VBool false) /\
  field r "error" =
    Some (VDict {[ "type" := VStr type; "message" := VStr message ]}).

(** ** A concrete runtime and world for the examples *)

(** Text is held as its UTF-8 bytes: [utf-8] encodes every string, [ascii]
    only those whose bytes are all below 128. *)
Definition encode_utf8 (s : string) : option (list byte) :=
  Some (list_byte_of_string s).

Definition encode_ascii (s : string) : option (list byte) :=
  if forallb (fun b => (Byte.to_N b <? 128)%N) (list_byte_of_string s)
  then Some (list_byte_of_string s)
  else None.

(** The codecs of the examples. *)
Definition example_codecs (name : string)
  : option (string -> option (list byte)) :=
  if String.eqb name "utf-8" then Some encode_utf8
  else if String.eqb name "ascii" then Some encode_ascii
  else None.

Definition example_codecs_names (name : string)
    (enc : string -> option (list byte)) :
  example_codecs name = Some enc -> has_nul name = false.
Proof.
  unfold example_codecs.
  destruct (String.eqb_spec name "utf-8") as [->|_]; [reflexivity|].
  destruct (String.eqb_spec name "ascii") as [->|_];
    [reflexivity|discriminate].
Qed.

Definition example_runtime : runtime :=
  {| lookup_codec := example_codecs;
     locale_encoding := "utf-8";
     str_container _ := "<container>";
     json_dumps _ := "<json>";
     run_child _ fs := Some (0%Z, fs);
     dict_items := map_to_list;
     codec_names := example_codecs_names;
     dict_items_listing d := reflexivity (map_to_list d) |}.

(** A server started in [/srv], with [/tmp/x] a directory holding the file
    [old.txt]. *)
Definition example_world : world :=
  {| w_fs := {[ "/" := Dir; "/srv" := Dir; "." := Dir; "/tmp" := Dir;
                "/tmp/x" := Dir;
                "/tmp/x/old.txt" := File (list_byte_of_string "old") ]};
     w_cwd := "/srv";
     w_environ := {[ "HOME" := "/root" ]};
     w_spawned := [] |}.

(** ** Notions used by the statements *)

(** The ways a task breaks the dispatcher's contract against a table of
    handlers: the task is absent (or empty), it has no [id], its [action]
    is absent or empty, or its [action] is a name the table does not bind. *)
Inductive violation (table : gmap string handler) : value -> Prop :=
  | task_absent task :
      truthy task = false -> violation table task
  | id_missing d :
      d !! "id" = None -> violation table (VDict d)
  | action_empty d :
      truthy (default VNone (d !! "action")) = false ->
      violation table (VDict d)
  | action_unregistered d a :
      d !! "action" = Some (VStr a) -> table !! a = None ->
      violation table (VDict d).

(** The encoding a content mapping asks for. *)
Definition content_encoding (c : gmap string value) : value :=
  default (VStr DEFAULT_ENCODING) (c !! "encoding").

(** The key of the directory holding the entry of key [k]. *)
Definition parent_key (k : string) : string := path_str (parent (Path k)).

(** Every entry of the file system lies in an entry of the file system. *)
Definition fs_closed (fs : gmap string node) : Prop :=
  map_Forall (fun k _ => is_Some (fs !! parent_key k)) fs.

(** The entries held directly by the directory of key [k]. *)
Definition children (fs : gmap string node) (k : string)
  : gmap string node :=
  filter (fun kv => parent_key kv.1 = k /\ kv.1 <> k) fs.

(** A shell word without any character special to the shell. *)
Definition plain_char (c : ascii) : bool :=
  let n := nat_of_ascii c in
  (((48 <=? n) && (n <=? 57)) || ((65 <=? n) && (n <=? 90)) ||
   ((97 <=? n) && (n <=? 122)) ||
   (n =? 45) || (n =? 46) || (n =? 47) || (n =? 95))%nat.

Definition plain_word (s : string) : bool :=
  match s with
  | EmptyString => false
  | _ => forallb plain_char (list_ascii_of_string s)
  end.

(** POSIX [sh -c command_string [command_name [argument...]]]: the shell
    runs [command_string]; the operands after it are the shell's own [$0],
    [$1], ...  For a command string that is one plain word, the command the
    shell starts has that word as its whole argument vector. *)
Definition sh_c_command (argv : list string) : option (list string) :=
  match argv with
  | _ :: "-c" :: command_string :: _ =>
      if plain_word command_string then Some [command_string] else None
  | _ => None
  end.

(** An environment [subprocess] takes for the child, and the environment
    the child gets: none, and the child inherits the server's; or a mapping
    of strings whose names hold no [=] and which holds no byte 0, and the
    child gets exactly that mapping. *)
Definition accepted_env (env : value) (environ child_env : gmap string string)
  : Prop :=
  match env with
  | VNone => child_env = environ
  | VDict e =>
      map_Forall (fun name v =>
                    has_char "=" name = false /\ has_nul name = false /\
                    exists t, v = VStr t /\ has_nul t = false) e /\
      child_env = omap str_value e
  | _ => False
  end.

(** The bytes [execve] has to take over for a child: every argument and
    every [name=value] of the environment, each with its closing byte 0 and
    the pointer to it. *)
Definition exec_size (p : process) : N :=
  (foldr (fun a n => N.of_nat (String.length a) + 9 + n) 0 (p_argv p) +
   map_fold (fun name v n =>
               N.of_nat (String.length name + String.length v) + 10 + n)
            0 (p_env p))%N.

(** What [execve] takes on every host, whatever its limits: 32 pages. *)
Definition ARG_MAX : N := 131072.

(** The path of the task, when it has one that is a string, is canonically
    spelled. *)
Definition canonical_task (d : gmap string value) : Prop :=
  forall s, d !! "path" = Some (VStr s) -> canonical (Path s) = true.

(** The world an outcome ends in, when it ends. *)
Definition final_world {A} (o : outcome A) : option world :=
  match o with
  | Ret _ w | Raise _ w => Some w
  | Hang => None
  end.

(** What a handler may return for the task [d]: an envelope that carries the
    task's [id] and [action] and is either a success or an [argument]
    error. *)
Definition envelope (d : gmap string value) (r : value) : Prop :=
  correlates d r /\
  (is_success r \/ exists message, is_error r "argument" message).

(** The tasks of the scenarios. *)
Definition curl_task : gmap string value :=
  {[ "id" := VStr "3"; "action" := VStr "command/run";
     "command" := VStr "curl" ]}.

Definition git_status_task : gmap string value :=
  {[ "id" := VStr "1"; "action" := VStr "command/run";
     "command" := VStr "git"; "arguments" := VList [VStr "status"] ]}.

Definition create_file_task : gmap string value :=
  {[ "id" := VStr "1"; "action" := VStr "file/create";
     "path" := VStr "/tmp/x/a.txt";
     "content" := VDict {[ "value" := VStr "hi" ]} ]}.

Definition capital_python_task : gmap string value :=
  {[ "id" := VStr "4"; "action" := VStr "command/run";
     "command" := VStr "Python" ]}.

Definition create_over_file_task : gmap string value :=
  {[ "id" := VStr "5"; "action" := VStr "file/create";
     "path" := VStr "/tmp/x/old.txt";
     "content" := VDict {[ "value" := VStr "new" ]} ]}.

Definition create_directory_task : gmap string value :=
  {[ "id" := VStr "2"; "action" := VStr "file/create";
     "path" := VStr "/tmp/x/sub" ]}.

Definition edit_file_task : gmap string value :=
  {[ "id" := VStr "6"; "action" := VStr "file/edit";
     "path" := VStr "/tmp/x/old.txt";
     "content" := VDict {[ "value" := VStr "new";
                           "encoding" := VStr "ascii" ]} ]}.

Definition edit_without_value_task : gmap string value :=
  {[ "id" := VStr "8"; "action" := VStr "file/edit";
     "path" := VStr "/tmp/x/old.txt";
     "content" := VDict {[ "encoding" := VStr "utf-8" ]} ]}.

Definition create_without_value_task : gmap string value :=
  {[ "id" := VStr "9"; "action" := VStr "file/create";
     "path" := VStr "/tmp/x/a.txt";
     "content" := VDict {[ "encoding" := VStr "utf-8" ]} ]}.

Definition create_numeric_encoding_task : gmap string value :=
  {[ "id" := VStr "18"; "action" := VStr "file/create";
     "path" := VStr "/tmp/x/a.txt";
     "content" := VDict {[ "encoding" := VInt 5 ]} ]}.

Definition edit_numeric_encoding_task : gmap string value :=
  {[ "id" := VStr "19"; "action" := VStr "file/edit";
     "path" := VStr "/tmp/x/old.txt";
     "content" := VDict {[ "encoding" := VInt 5 ]} ]}.

Definition create_unknown_encoding_task : gmap string value :=
  {[ "id" := VStr "26"; "action" := VStr "file/create";
     "path" := VStr "/tmp/x/a.txt";
     "content" := VDict {[ "encoding" := VStr "klingon" ]} ]}.

Definition edit_missing_task : gmap string value :=
  {[ "id" := VStr "20"; "action" := VStr "file/edit";
     "path" := VStr "/tmp/x/missing";
     "content" := VDict {[ "value" := VStr "new" ]} ]}.

Definition delete_directory_task : gmap string value :=
  {[ "id" := VStr "10"; "action" := VStr "file/delete";
     "path" := VStr "/tmp/x/" ]}.

(** [TASK_ACTION_HANDLERS] once the module is loaded. *)
Definition loaded_handlers (rt : runtime) : gmap string handler :=
  match register_all (TASKS rt) with
  | inr table => table
  | inl _ => ∅
  end.

(** ** Outcomes of the handlers *)

(** [m], run in [w], returns a value and a world satisfying [Q], raises in
    a world satisfying [E], or never ends. *)
Definition ends {A} (m : io A) (w : world) (Q : A -> world -> Prop)
    (E : world -> Prop) : Prop :=
  match m w with
  | Ret a w' => Q a w'
  | Raise _ w' => E w'
  | Hang => True
  end.

(** What a successful file/create does to the world: one new entry, at the
    task's path, inside a directory. *)
Definition creates (d : gmap string value) (w w' : world) : Prop :=
  exists s n, d !! "path" = Some (VStr s) /\
              w_fs w !! path_str (Path s) = None /\
              w_fs w !! path_str (parent (Path s)) = Some Dir /\
              w' = set_fs w (<[path_str (Path s) := n]> (w_fs w)).

(** What a successful file/edit does: new bytes for the file at the task's
    path. *)
Definition edits (d : gmap string value) (w w' : world) : Prop :=
  exists s old bs, d !! "path" = Some (VStr s) /\
                   w_fs w !! path_str (Path s) = Some (File old) /\
                   w' = set_fs w (<[path_str (Path s) := File bs]> (w_fs w)).

(** What a successful file/delete does: entries go, at the task's path or
    below it, and no other. *)
Definition deletes (d : gmap string value) (w w' : world) : Prop :=
  exists s fs', d !! "path" = Some (VStr s) /\
                w' = set_fs w fs' /\
                fs' ⊆ w_fs w /\
                forall k, k <> path_str (Path s) ->
                          is_under (Path s) (Path k) = false ->
                          fs' !! k = w_fs w !! k.

(** What a successful command/run does: one shell on a listed command has
    run, and left the file system as it pleased. *)
Definition spawns (w w' : world) : Prop :=
  exists c argv cwd env fs',
    In c SAFE_COMMANDS /\
    w' = set_fs (log_spawn w {| p_argv := "/bin/sh" :: "-c" :: c :: argv;
                                p_cwd := cwd; p_env := env |}) fs'.

(** What a handler guarantees on the task [d]: a success envelope comes
    with the change [S], an envelope that is not a success is an [argument]
    error and comes with no change at all, and an exception leaves the
    world unchanged or changed by [S]. *)
Definition guarantees (h : handler) (S : world -> world -> Prop)
    (d : gmap string value) (w : world) : Prop :=
  ends (h (VDict d)) w
       (fun r w' =>
          (is_success r /\ S w w') \/
          ((exists message, is_error r "argument" message) /\ w' = w))
       (fun w' => w' = w \/ S w w').

(** Between two worlds nothing was spawned but, at most, one shell on a
    command of the allow-list, and the server's working directory and
    environment are the same. *)
Definition only_listed_spawn (w w' : world) : Prop :=
  w_cwd w' = w_cwd w /\ w_environ w' = w_environ w /\
  (w_spawned w' = w_spawned w \/
   exists c argv cwd env,
     In c SAFE_COMMANDS /\
     w_spawned w' =
       (w_spawned w ++ [ {| p_argv := "/bin/sh" :: "-c" :: c :: argv;
                            p_cwd := cwd; p_env := env |} ])%list).

(** One turn of the registration loop. *)
Definition register_step (acc : exn + gmap string handler)
    (task : string * handler) : exn + gmap string handler :=
  let '(action, h) := task in
  match acc with
  | inr table => register_task_action_handler action h table
  | inl e => inl e
  end.

(** More example tasks. *)

Definition zero_id_task : gmap string value :=
  {[ "id" := VInt 0; "action" := VStr "file/delete";
     "path" := VStr "/tmp/x/old.txt" ]}.

Definition delete_file_task : gmap string value :=
  {[ "id" := VStr "11"; "action" := VStr "file/delete";
     "path" := VStr "/tmp/x/old.txt" ]}.

Definition delete_missing_task : gmap string value :=
  {[ "id" := VStr "2"; "action" := VStr "file/delete";
     "path" := VStr "/tmp/x/missing" ]}.

Definition delete_new_directory_task : gmap string value :=
  {[ "id" := VStr "12"; "action" := VStr "file/delete";
     "path" := VStr "/tmp/x/sub" ]}.

Definition edit_again_task : gmap string value :=
  {[ "id" := VStr "13"; "action" := VStr "file/edit";
     "path" := VStr "/tmp/x/old.txt";
     "content" := VDict {[ "value" := VStr "newer" ]} ]}.

Definition edit_bare_string_task : gmap string value :=
  {[ "id" := VStr "14"; "action" := VStr "file/edit";
     "path" := VStr "/tmp/x/old.txt"; "content" := VStr "new" ]}.

Definition edit_unknown_encoding_task : gmap string value :=
  {[ "id" := VStr "15"; "action" := VStr "file/edit";
     "path" := VStr "/tmp/x/old.txt";
     "content" := VDict {[ "value" := VStr "new";
                           "encoding" := VStr "klingon" ]} ]}.

Definition null_arguments_task : gmap string value :=
  {[ "id" := VStr "16"; "action" := VStr "command/run";
     "command" := VStr "git"; "arguments" := VNone ]}.

Definition number_argument_task : gmap string value :=
  {[ "id" := VStr "17"; "action" := VStr "command/run";
     "command" := VStr "git";
     "arguments" := VList [VStr "log"; VInt 1] ]}.

Definition create_bare_string_task : gmap string value :=
  {[ "id" := VStr "21"; "action" := VStr "file/create";
     "path" := VStr "/tmp/x/a.txt"; "content" := VStr "new" ]}.

(** Tasks that hold the byte 0, or a name the environment cannot hold. *)
Definition nul_argument_task : gmap string value :=
  {[ "id" := VStr "22"; "action" := VStr "command/run";
     "command" := VStr "git";
     "arguments" := VList [VStr (String "a" (String "000" "b")); VInt 1] ]}.

Definition edit_nul_encoding_task : gmap string value :=
  {[ "id" := VStr "23"; "action" := VStr "file/edit";
     "path" := VStr "/tmp/x/old.txt";
     "content" := VDict {[ "value" := VStr "new";
                           "encoding" :=
                             VStr (String "u" (String "000" "8")) ]} ]}.

Definition git_in_clean_environment_task : gmap string value :=
  {[ "id" := VStr "25"; "action" := VStr "command/run";
     "command" := VStr "git"; "arguments" := VList [VStr "status"];
     "path" := VStr "/tmp/x";
     "environment" := VDict {[ "LANG" := VStr "C" ]} ]}.

Definition equals_in_name_task : gmap string value :=
  {[ "id" := VStr "24"; "action" := VStr "command/run";
     "command" := VStr "git";
     "environment" := VDict {[ "A=B" := VStr "c" ]} ]}.

(** A runtime whose children all fail with status 1. *)
Definition failing_runtime : runtime :=
  {| lookup_codec := lookup_codec example_runtime;
     locale_encoding := locale_encoding example_runtime;
     str_container := str_container example_runtime;
     json_dumps := json_dumps example_runtime;
     run_child _ fs := Some (1%Z, fs);
     dict_items := dict_items example_runtime;
     codec_names := codec_names example_runtime;
     dict_items_listing := dict_items_listing example_runtime |}.

(** ** Basic facts *)

Example canonical_examples :
  canonical (Path "/tmp/x/a.txt") = true /\
  canonical (Path "/tmp//x/./a.txt/") = true /\
  canonical (Path "/tmp/x/..") = false /\
  canonical (Path "x/a.txt") = false /\
  canonical (Path "") = false /\
  canonical (Path "//tmp/x") = false /\
  canonical (Path (String "/" (String "a" (String "000" "b")))) = false.
Proof. repeat split. Qed.

Example Path_examples :
  path_str (Path "/tmp//x/./a.txt/") = "/tmp/x/a.txt" /\
  path_str (Path "") = "." /\
  path_str (Path "//a") = "//a" /\
  path_str (Path "///a") = "/a" /\
  path_str (Path "a/../b") = "a/../b" /\
  path_str (parent (Path "/tmp/x/a.txt")) = "/tmp/x" /\
  path_str (parent (Path "a")) = "." /\
  path_str (parent (Path "/a")) = "/" /\
  path_str (parent (Path "/")) = "/".
Proof. repeat split. Qed.

Example percent_s_example :
  percent_s "A handler for `%s` does not exist." "file/move" =
  "A handler for `file/move` does not exist.".
Proof. reflexivity. Qed.

Lemma bind_Ret_inv {A B} (m : io A) (k : A -> io B) w b w' (P : Prop) :
  (forall a w1, m w = Ret a w1 -> k a w1 = Ret b w' -> P) ->
  bind m k w = Ret b w' -> P.
Proof.
  unfold bind. intros HP. destruct (m w) as [a w1| |]; try discriminate.
  intros Hk. exact (HP a w1 eq_refl Hk).
Qed.

Lemma make_task_success_dict d w :
  make_task_success (VDict d) w =
  Ret (VDict {[ "id" := default VNone (d !! "id");
                "action" := default VNone (d !! "action");
                "success" := VBool true ]}) w.
Proof. reflexivity. Qed.

Lemma make_task_error_dict d type message w :
  make_task_error (VDict d) type message w =
  Ret (VDict {[ "id" := default VNone (d !! "id");
                "action" := default VNone (d !! "action");
                "success" := VBool false;
                "error" := VDict {[ "type" := VStr type;
                                    "message" := VStr message ]} ]}) w.
Proof. reflexivity. Qed.

Lemma success_envelope d w r w' :
  make_task_success (VDict d) w = Ret r w' ->
  w' = w /\ correlates d r /\ is_success r.
Proof.
  rewrite make_task_success_dict. intros [= <- <-].
  repeat split.
Qed.

Lemma error_envelope d type message w r w' :
  make_task_error (VDict d) type message w = Ret r w' ->
  w' = w /\ correlates d r /\ is_error r type message.
Proof.
  rewrite make_task_error_dict. intros [= <- <-].
  repeat split.
Qed.

(** ** Result builders *)

(** For every task that is a mapping, be it empty or without [id] or
    [action], both builders return an envelope, raising nothing and leaving
    the world alone; its [id] and [action] are the task's, a missing one
    being the null value. *)
Lemma builders_copy_id_action (d : gmap string value)
    (type message : string) (w : world) :
  (exists r, make_task_success (VDict d) w = Ret r w /\
             correlates d r /\ is_success r) /\
  (exists r, make_task_error (VDict d) type message w = Ret r w /\
             correlates d r /\ is_error r type message).
Proof.
  split; eexists; (split; [reflexivity|]); repeat split.
Qed.

(** C8, on an absent task (the null value): neither builder produces an
    envelope, the attribute lookup [task.get] raises.  The guard
    [if not task] of each handler makes this very call to answer an absent
    task with an error envelope, so the handler raises as well. *)
Theorem builders_raise_on_absent_task :
  make_task_success VNone example_world =
    Raise AttributeError example_world /\
  make_task_error VNone "argument" "`task` must be specified" example_world =
    Raise AttributeError example_world /\
  Forall (fun h : handler =>
            h VNone example_world = Raise AttributeError example_world)
         (map snd (TASKS example_runtime)).
Proof. split; [|split]; [reflexivity..|]. repeat constructor. Qed.

(** ** Correlation of results *)

Ltac envelope_step :=
  lazymatch goal with
  | |- (if ?b then _ else _) _ = Ret _ _ -> _ => destruct b
  | |- bind _ _ _ = Ret _ _ -> _ =>
      apply bind_Ret_inv; intros ? ? _; cbv beta
  | |- make_task_success (VDict _) _ = Ret _ _ -> _ =>
      let H := fresh in
      intros H; apply success_envelope in H; destruct H as (_ & ? & ?);
      split; [assumption | left; assumption]
  | |- make_task_error (VDict _) _ _ _ = Ret _ _ -> _ =>
      let H := fresh in
      intros H; apply error_envelope in H; destruct H as (_ & ? & ?);
      split; [assumption | right; eexists; eassumption]
  end.

Lemma task_file_create_envelope rt d w r w' :
  task_file_create rt (VDict d) w = Ret r w' -> envelope d r.
Proof. unfold task_file_create. repeat envelope_step. Qed.

Lemma task_file_edit_envelope rt d w r w' :
  task_file_edit rt (VDict d) w = Ret r w' -> envelope d r.
Proof. unfold task_file_edit. repeat envelope_step. Qed.

Lemma task_file_delete_envelope d w r w' :
  task_file_delete (VDict d) w = Ret r w' -> envelope d r.
Proof. unfold task_file_delete. repeat envelope_step. Qed.

Lemma task_command_run_envelope rt d w r w' :
  task_command_run rt (VDict d) w = Ret r w' -> envelope d r.
Proof. unfold task_command_run. repeat envelope_step. Qed.

(** C2: whatever one of the four registered handlers returns for a task,
    a success as well as an error, carries the [id] and the [action] of
    that task (the null value for one the task does not have). *)
Theorem handlers_correlate_results (rt : runtime) (h : handler)
    (d : gmap string value) (w w' : world) (r : value) :
  In h (map snd (TASKS rt)) ->
  h (VDict d) w = Ret r w' ->
  field r "id" = Some (default VNone (d !! "id")) /\
  field r "action" = Some (default VNone (d !! "action")) /\
  (is_success r \/ exists message, is_error r "argument" message).
Proof.
  intros Hin Hrun.
  assert (envelope d r) as [[Hid Hact] Hkind]; [|by auto].
  simpl in Hin.
  destruct Hin as [<-|[<-|[<-|[<-|[]]]]];
    eauto using task_file_create_envelope, task_file_edit_envelope,
                task_file_delete_envelope, task_command_run_envelope.
Qed.

Lemma handlers_correlate_results_witness :
  In (task_command_run example_runtime) (map snd (TASKS example_runtime)) /\
  (exists r,
     task_command_run example_runtime (VDict curl_task) example_world =
       Ret r example_world /\
     field r "id" = Some (VStr "3") /\
     field r "action" = Some (VStr "command/run")) /\
  (exists r w',
     task_file_create example_runtime (VDict create_file_task) example_world =
       Ret r w' /\
     field r "id" = Some (VStr "1") /\
     field r "action" = Some (VStr "file/create")).
Proof.
  split; [simpl; tauto|]. split.
  - eexists. split; [reflexivity|].
    refine (let H := handlers_correlate_results example_runtime
                       (task_command_run example_runtime) curl_task
                       example_world example_world _ _ _ in
            conj (proj1 H) (proj1 (proj2 H))).
    + simpl; tauto.
    + reflexivity.
  - eexists _, _. split; [reflexivity|].
    refine (let H := handlers_correlate_results example_runtime
                       (task_file_create example_runtime) create_file_task
                       example_world _ _ _ _ in
            conj (proj1 H) (proj1 (proj2 H))).
    + simpl; tauto.
    + reflexivity.
Defined.

(** ** The registry and the dispatcher *)

Lemma register_all_TASKS rt :
  register_all (TASKS rt) = inr (loaded_handlers rt) /\
  dom (loaded_handlers rt) =
    {[ "file/create"; "file/edit"; "file/delete"; "command/run" ]}.
Proof. split; [reflexivity|]. apply leibniz_equiv. set_solver. Qed.

Lemma dict_with_key_truthy (d : gmap string value) k v :
  d !! k = Some v -> truthy (VDict d) = true.
Proof.
  intros Hk. simpl. destruct (size d) eqn:Hsize; [|reflexivity].
  apply map_size_empty_iff in Hsize. subst d.
  by rewrite lookup_empty in Hk.
Qed.

Lemma run_task_violation rt table task w :
  violation table task ->
  exists msg, run_task rt table task w = Raise (ValueError msg) w.
Proof.
  intros Hv. unfold run_task.
  destruct Hv as [task Hfalsy|d Hid|d Hact|d a Hact Hnone].
  - rewrite Hfalsy. simpl. eauto.
  - destruct (truthy (VDict d)); simpl; [|by eauto].
    unfold bind, lift. simpl. rewrite Hid. simpl. eauto.
  - destruct (truthy (VDict d)); simpl; [|by eauto].
    unfold bind, lift. simpl.
    destruct (truthy (default VNone (d !! "id"))); simpl; [|by eauto].
    unfold get_task_action_handler. rewrite Hact. simpl. eauto.
  - destruct (truthy (VDict d)); simpl; [|by eauto].
    unfold bind, lift. simpl.
    destruct (truthy (default VNone (d !! "id"))); simpl; [|by eauto].
    unfold get_task_action_handler. rewrite Hact. simpl.
    destruct a; simpl; [by eauto|]. rewrite Hnone. simpl. eauto.
Qed.

(** C3: a task that is absent, that has no [id], or whose [action] is empty
    or bound to no handler makes the dispatcher raise ([ValueError]) instead
    of returning an envelope, and so does registering a handler under an
    action that is bound already; nothing else changes. *)
Theorem contract_violations_raise (rt : runtime)
    (table : gmap string handler) (w : world) :
  (forall task, violation table task ->
     exists msg, run_task rt table task w = Raise (ValueError msg) w) /\
  (forall action h h', table !! action = Some h ->
     exists msg,
       register_task_action_handler action h' table = inl (ValueError msg)).
Proof.
  split.
  - intros task Hv. by apply run_task_violation.
  - intros action h h' Hbound. unfold register_task_action_handler.
    rewrite Hbound. eauto.
Qed.

Lemma contract_violations_raise_witness :
  let table := loaded_handlers example_runtime in
  let run := fun task => run_task example_runtime table task example_world in
  (exists msg, run VNone = Raise (ValueError msg) example_world) /\
  (exists msg, run (VDict {[ "action" := VStr "file/create" ]}) =
                 Raise (ValueError msg) example_world) /\
  (exists msg, run (VDict {[ "id" := VStr "1" ]}) =
                 Raise (ValueError msg) example_world) /\
  (exists msg, run (VDict {[ "id" := VStr "1";
                             "action" := VStr "file/move" ]}) =
                 Raise (ValueError msg) example_world) /\
  (exists msg, register_task_action_handler "file/create"
                 task_file_delete table = inl (ValueError msg)).
Proof.
  intros table run.
  destruct (contract_violations_raise example_runtime table example_world)
    as [Hrun Hreg].
  repeat split.
  - apply Hrun. by apply task_absent.
  - apply Hrun. by apply id_missing.
  - apply Hrun. by apply action_empty.
  - apply Hrun. by apply action_unregistered with (a := "file/move").
  - by apply Hreg with (h := task_file_create example_runtime).
Defined.

(** ** command/run: the allow-list *)

Lemma in_strings_In c l : in_strings (VStr c) l = true <-> In c l.
Proof.
  simpl. rewrite existsb_exists. split.
  - intros (x & Hx & Heq). apply String.eqb_eq in Heq. by subst.
  - intros Hin. exists c. split; [done|]. apply String.eqb_refl.
Qed.

Lemma in_strings_not_In c l : ~ In c l -> in_strings (VStr c) l = false.
Proof.
  intros Hnot. destruct (in_strings (VStr c) l) eqn:Hin; [|done].
  by apply in_strings_In in Hin.
Qed.

Lemma nonempty_truthy c : c <> "" -> truthy (VStr c) = true.
Proof. by destruct c. Qed.

Lemma command_run_without_command rt d w :
  d !! "command" = None ->
  task_command_run rt (VDict d) w =
  make_task_error (VDict d) "argument"
    (if truthy (VDict d) then "A `command` must be specified"
     else "`task` must be specified") w.
Proof.
  intros Hcmd. unfold task_command_run.
  destruct (truthy (VDict d)); [|done].
  cbn [negb]. unfold bind at 1. cbn [lift py_get ret]. by rewrite Hcmd.
Qed.

Lemma command_run_unlisted rt d w c :
  d !! "command" = Some (VStr c) -> c <> "" -> ~ In c SAFE_COMMANDS ->
  task_command_run rt (VDict d) w =
  make_task_error (VDict d) "argument"
    ("The command `" ++ c ++ "` is not currently available to run") w.
Proof.
  intros Hcmd Hne Hnot. unfold task_command_run.
  rewrite (dict_with_key_truthy d _ _ Hcmd).
  cbn [negb]. unfold bind at 1. cbn [lift py_get ret]. rewrite Hcmd.
  cbn [default from_option id]. rewrite (nonempty_truthy c Hne).
  rewrite (in_strings_not_In c _ Hnot). reflexivity.
Qed.

(** C7: without a [command] the handler returns an [argument] error, and
    for a command outside the allow-list an [argument] error whose message
    quotes that command; the task [{id: 3, action: command/run, command:
    curl}] gets exactly such an envelope.  The world is left as it was. *)
Theorem command_run_argument_errors (rt : runtime)
    (d : gmap string value) (w : world) :
  (d !! "command" = None ->
   exists r message,
     task_command_run rt (VDict d) w = Ret r w /\
     correlates d r /\ is_error r "argument" message) /\
  (forall c, d !! "command" = Some (VStr c) -> c <> "" ->
   ~ In c SAFE_COMMANDS ->
   exists r,
     task_command_run rt (VDict d) w = Ret r w /\
     correlates d r /\
     is_error r "argument"
       ("The command `" ++ c ++ "` is not currently available to run")) /\
  task_command_run rt (VDict curl_task) w =
    Ret (VDict {[ "id" := VStr "3";
                  "action" := VStr "command/run";
                  "success" := VBool false;
                  "error" :=
                    VDict {[ "type" := VStr "argument";
                             "message" :=
                               VStr "The command `curl` is not currently available to run"
                          ]} ]}) w.
Proof.
  split; [|split].
  - intros Hcmd. rewrite command_run_without_command by done.
    rewrite make_task_error_dict. eexists _, _.
    split; [reflexivity|]. repeat split.
  - intros c Hcmd Hne Hnot. rewrite (command_run_unlisted rt d w c) by done.
    rewrite make_task_error_dict. eexists.
    split; [reflexivity|]. repeat split.
  - reflexivity.
Qed.

Lemma command_run_argument_errors_witness :
  (exists r message,
     task_command_run example_runtime
       (VDict {[ "id" := VStr "7"; "action" := VStr "command/run" ]})
       example_world = Ret r example_world /\
     is_error r "argument" message) /\
  (exists r,
     task_command_run example_runtime (VDict curl_task) example_world =
       Ret r example_world /\
     is_error r "argument"
       "The command `curl` is not currently available to run").
Proof.
  split.
  - destruct (proj1 (command_run_argument_errors example_runtime
                       {[ "id" := VStr "7"; "action" := VStr "command/run" ]}
                       example_world))
      as (r & message & Hrun & _ & Herr).
    + reflexivity.
    + exists r, message. split; assumption.
  - destruct (proj1 (proj2 (command_run_argument_errors example_runtime
                              curl_task example_world)) "curl")
      as (r & Hrun & _ & Herr).
    + reflexivity.
    + discriminate.
    + unfold SAFE_COMMANDS. simpl. intros [H|[H|[H|[H|[]]]]]; discriminate.
    + exists r. split; assumption.
Defined.

Lemma listed_nonempty c : In c SAFE_COMMANDS -> c <> "".
Proof.
  unfold SAFE_COMMANDS. simpl.
  intros [<-|[<-|[<-|[<-|[]]]]]; discriminate.
Qed.

(** Past the allow-list the handler does nothing but spawn the child and
    report success. *)
Lemma listed_no_nul c : In c SAFE_COMMANDS -> has_nul c = false.
Proof.
  unfold SAFE_COMMANDS. simpl.
  intros [<-|[<-|[<-|[<-|[]]]]]; reflexivity.
Qed.

Lemma command_run_listed rt d w c :
  d !! "command" = Some (VStr c) -> In c SAFE_COMMANDS ->
  task_command_run rt (VDict d) w =
  (let* argv :=
     lift (list_add [VStr c] (default (VList []) (d !! "arguments"))) in
   subprocess_run rt argv (default VNone (d !! "path"))
     (default VNone (d !! "environment")) true true ;;;
   make_task_success (VDict d)) w.
Proof.
  intros Hcmd Hin. unfold task_command_run.
  rewrite (dict_with_key_truthy d _ _ Hcmd).
  cbn [negb]. unfold bind at 1. cbn [lift py_get ret]. rewrite Hcmd.
  cbn [default from_option id].
  rewrite (nonempty_truthy c (listed_nonempty c Hin)).
  rewrite (proj2 (in_strings_In c SAFE_COMMANDS) Hin).
  reflexivity.
Qed.

(** C10: the allow-list holds the four names [python], [node], [git] and
    [uv] and nothing else; a command string is looked up by equality, so a
    string that is not one of the four ([Python] and [/usr/bin/python]
    among them) gets an [argument] error with the world untouched, while
    one of the four is never answered with an error. *)
Theorem allow_list_is_exact (rt : runtime) (d : gmap string value)
    (w : world) (c : string) :
  d !! "command" = Some (VStr c) ->
  SAFE_COMMANDS = ["python"; "node"; "git"; "uv"] /\
  (c <> "python" -> c <> "node" -> c <> "git" -> c <> "uv" ->
   exists r message,
     task_command_run rt (VDict d) w = Ret r w /\
     correlates d r /\ is_error r "argument" message) /\
  (c = "python" \/ c = "node" \/ c = "git" \/ c = "uv" ->
   forall r w', task_command_run rt (VDict d) w = Ret r w' ->
                is_success r) /\
  (c = "Python" \/ c = "/usr/bin/python" ->
   exists r,
     task_command_run rt (VDict d) w = Ret r w /\
     is_error r "argument"
       ("The command `" ++ c ++ "` is not currently available to run")).
Proof.
  intros Hcmd. split; [reflexivity|]. split; [|split].
  - intros H1 H2 H3 H4.
    assert (~ In c SAFE_COMMANDS) as Hnot.
    { unfold SAFE_COMMANDS. simpl. intros [H|[H|[H|[H|[]]]]]; congruence. }
    destruct c as [|a c'].
    + unfold task_command_run. rewrite (dict_with_key_truthy d _ _ Hcmd).
      cbn [negb]. unfold bind at 1. cbn [lift py_get ret]. rewrite Hcmd.
      cbn [default from_option id truthy negb].
      rewrite make_task_error_dict. eexists _, _.
      split; [reflexivity|]. repeat split.
    + rewrite (command_run_unlisted rt d w (String a c')) by done.
      rewrite make_task_error_dict. eexists _, _.
      split; [reflexivity|]. repeat split.
  - intros Hin r w'.
    assert (In c SAFE_COMMANDS) as Hlisted.
    { unfold SAFE_COMMANDS. simpl. intuition. }
    rewrite (command_run_listed rt d w c Hcmd Hlisted).
    apply bind_Ret_inv. intros argv w1 _. cbv beta.
    apply bind_Ret_inv. intros [] w2 _. cbv beta.
    intros Hok. apply success_envelope in Hok. apply Hok.
  - intros Hc.
    rewrite (command_run_unlisted rt d w c Hcmd).
    + rewrite make_task_error_dict. eexists.
      split; [reflexivity|]. repeat split.
    + destruct Hc as [->| ->]; discriminate.
    + unfold SAFE_COMMANDS. simpl.
      destruct Hc as [->| ->]; intros [H|[H|[H|[H|[]]]]]; discriminate.
Qed.

Lemma allow_list_is_exact_witness :
  capital_python_task !! "command" = Some (VStr "Python") /\
  exists r,
    task_command_run example_runtime (VDict capital_python_task)
      example_world = Ret r example_world /\
    is_error r "argument"
      "The command `Python` is not currently available to run".
Proof.
  split; [reflexivity|].
  destruct (allow_list_is_exact example_runtime capital_python_task
              example_world "Python" eq_refl) as (_ & _ & _ & Hcase).
  destruct Hcase as (r & Hrun & Herr).
  - left. reflexivity.
  - exists r. split; assumption.
Defined.

(** ** file/create *)

Lemma lift_Ret_inv {A} (x : exn + A) w a w1 :
  lift x w = Ret a w1 -> x = inr a /\ w1 = w.
Proof. destruct x; cbn; intros [=]; subst; auto. Qed.

Lemma error_not_success r type message :
  is_error r type message -> is_success r -> False.
Proof. intros [He _] [Hs _]. congruence. Qed.

(** A name under which a codec is registered is one [open] accepts. *)
Lemma encoding_arg_known rt e enc :
  lookup_codec rt e = Some enc -> encoding_arg rt (VStr e) = inr e.
Proof.
  intros Hcodec. cbn [encoding_arg].
  by rewrite (codec_names rt e enc Hcodec).
Qed.

Lemma file_create_existing rt d w s n :
  d !! "path" = Some (VStr s) -> w_fs w !! path_str (Path s) = Some n ->
  task_file_create rt (VDict d) w =
  make_task_error (VDict d) "argument"
    ("A file or directory at path `" ++ path_str (Path s) ++
     "` already exists") w.
Proof.
  intros Hpath Hex. unfold task_file_create.
  rewrite (dict_with_key_truthy d _ _ Hpath). cbn [negb].
  unfold bind at 1. cbn [lift py_get ret]. rewrite Hpath.
  cbn [default from_option id].
  unfold bind at 1. cbn [lift path_of_value ret].
  unfold bind at 1. unfold path_exists. rewrite Hex. reflexivity.
Qed.

(** With an empty path the handler looks at [.]: it reports it as existing,
    or fails to create it below itself. *)
Lemma file_create_success_path rt d w r w' :
  task_file_create rt (VDict d) w = Ret r w' -> is_success r ->
  exists s, d !! "path" = Some (VStr s) /\ s <> "".
Proof.
  unfold task_file_create. destruct (truthy (VDict d)); cbn [negb].
  2:{ intros H Hs. apply error_envelope in H as (_ & _ & He).
      destruct (error_not_success _ _ _ He Hs). }
  unfold bind at 1. cbn [lift py_get ret].
  destruct (d !! "path") as [[| | |s| |]|]; cbn [default from_option id];
    unfold bind at 1; cbn [lift path_of_value ret raise]; try discriminate.
  destruct s as [|a s'].
  2:{ intros _ _. eexists. split; [reflexivity|discriminate]. }
  change (Path "") with {| root := ""; tail := [] |}.
  unfold bind at 1, path_exists.
  change (path_str {| root := ""; tail := [] |}) with ".".
  destruct (w_fs w !! ".") eqn:Hdot.
  { intros H Hs. apply error_envelope in H as (_ & _ & He).
    destruct (error_not_success _ _ _ He Hs). }
  unfold bind at 1. cbn [lift py_get ret].
  unfold bind at 1.
  destruct (truthy (default VNone (d !! "content"))); cbn [negb].
  - unfold bind at 1.
    destruct (lift (py_get (default VNone (d !! "content")) "encoding"
                           (VStr DEFAULT_ENCODING)) w)
      as [enc w1| |] eqn:Henc; try discriminate.
    apply lift_Ret_inv in Henc as [_ ->].
    unfold open_w. unfold bind at 1. unfold bind at 1.
    destruct (lift (encoding_arg rt enc) w) as [name w1| |] eqn:Hname;
      try discriminate.
    apply lift_Ret_inv in Hname as [_ ->].
    unfold bind at 1. unfold open_raw_w.
    change (path_str {| root := ""; tail := [] |}) with ".".
    change (path_str (parent {| root := ""; tail := [] |})) with ".".
    rewrite Hdot. discriminate.
  - unfold mkdir. change (path_str {| root := ""; tail := [] |}) with ".".
    change (path_str (parent {| root := ""; tail := [] |})) with ".".
    rewrite Hdot. discriminate.
Qed.

(** C4: the handler succeeds only for a task whose [path] is a non-empty
    string, and for a [path] that names an existing entry, file or
    directory, it returns an [argument] error and leaves the world, the
    entry included, exactly as it was. *)
Theorem file_create_never_overwrites (rt : runtime)
    (d : gmap string value) (w : world) :
  (forall r w', task_file_create rt (VDict d) w = Ret r w' ->
                is_success r ->
                exists s, d !! "path" = Some (VStr s) /\ s <> "") /\
  (forall s n, d !! "path" = Some (VStr s) ->
               w_fs w !! path_str (Path s) = Some n ->
   exists r,
     task_file_create rt (VDict d) w = Ret r w /\
     correlates d r /\
     is_error r "argument"
       ("A file or directory at path `" ++ path_str (Path s) ++
        "` already exists")).
Proof.
  split.
  - intros r w'. apply file_create_success_path.
  - intros s n Hpath Hex.
    rewrite (file_create_existing rt d w s n Hpath Hex).
    rewrite make_task_error_dict. eexists.
    split; [reflexivity|]. repeat split.
Qed.

Lemma file_create_never_overwrites_witness :
  (exists r,
     task_file_create example_runtime (VDict create_over_file_task)
       example_world = Ret r example_world /\
     is_error r "argument"
       "A file or directory at path `/tmp/x/old.txt` already exists") /\
  w_fs example_world !! "/tmp/x/old.txt" =
    Some (File (list_byte_of_string "old")).
Proof.
  split; [|reflexivity].
  destruct (proj2 (file_create_never_overwrites example_runtime
                     create_over_file_task example_world)
              "/tmp/x/old.txt" (File (list_byte_of_string "old")))
    as (r & Hrun & _ & Herr).
  - reflexivity.
  - reflexivity.
  - exists r. split; assumption.
Defined.

Lemma file_create_fresh_prefix rt d w s :
  d !! "path" = Some (VStr s) -> w_fs w !! path_str (Path s) = None ->
  task_file_create rt (VDict d) w =
  ((if negb (truthy (default VNone (d !! "content"))) then mkdir (Path s)
    else
      let* encoding :=
        lift (py_get (default VNone (d !! "content")) "encoding"
                     (VStr DEFAULT_ENCODING)) in
      let* f := open_w rt (Path s) encoding in
      let* v := lift (py_get (default VNone (d !! "content")) "value" VNone) in
      write f v) ;;;
   make_task_success (VDict d)) w.
Proof.
  intros Hpath Hfresh. unfold task_file_create.
  rewrite (dict_with_key_truthy d _ _ Hpath). cbn [negb].
  unfold bind at 1. cbn [lift py_get ret]. rewrite Hpath.
  cbn [default from_option id].
  unfold bind at 1. cbn [lift path_of_value ret].
  unfold bind at 1. unfold path_exists. rewrite Hfresh. reflexivity.
Qed.

Lemma file_create_fresh_dir rt d w s :
  d !! "path" = Some (VStr s) ->
  w_fs w !! path_str (Path s) = None ->
  w_fs w !! path_str (parent (Path s)) = Some Dir ->
  truthy (default VNone (d !! "content")) = false ->
  task_file_create rt (VDict d) w =
  make_task_success (VDict d)
    (set_fs w (<[path_str (Path s) := Dir]> (w_fs w))).
Proof.
  intros Hpath Hfresh Hparent Hcontent.
  rewrite (file_create_fresh_prefix rt d w s Hpath Hfresh).
  rewrite Hcontent. cbn [negb]. unfold bind at 1, mkdir.
  rewrite Hfresh, Hparent. reflexivity.
Qed.

Lemma file_create_fresh_file rt d w s c v e enc bs :
  d !! "path" = Some (VStr s) ->
  w_fs w !! path_str (Path s) = None ->
  w_fs w !! path_str (parent (Path s)) = Some Dir ->
  d !! "content" = Some (VDict c) ->
  c !! "value" = Some (VStr v) ->
  content_encoding c = VStr e ->
  lookup_codec rt e = Some enc ->
  enc v = Some bs ->
  task_file_create rt (VDict d) w =
  make_task_success (VDict d)
    (set_fs w (<[path_str (Path s) := File bs]> (w_fs w))).
Proof.
  intros Hpath Hfresh Hparent Hcontent Hvalue Hencoding Hcodec Henc.
  rewrite (file_create_fresh_prefix rt d w s Hpath Hfresh).
  rewrite Hcontent. cbn [default from_option id].
  rewrite (dict_with_key_truthy c _ _ Hvalue). cbn [negb].
  unfold open_w, open_raw_w, write.
  set (k := path_str (Path s)) in *.
  set (pk := path_str (parent (Path s))) in *. clearbody k pk.
  unfold bind, lift, py_get, ret, raise.
  fold (content_encoding c). rewrite Hencoding.
  rewrite (encoding_arg_known rt e enc Hcodec).
  rewrite Hfresh, Hparent, Hcodec, Hvalue.
  cbn [default from_option id f_encode f_key]. rewrite Henc.
  cbn [set_fs w_fs]. rewrite lookup_insert_eq. rewrite insert_insert_eq.
  reflexivity.
Qed.

(** In a closed file system nothing lies in an entry that is not there, so
    a directory made at a fresh key holds nothing. *)
Lemma fresh_directory_empty (fs : gmap string node) k :
  fs_closed fs -> fs !! k = None -> children (<[k := Dir]> fs) k = ∅.
Proof.
  intros Hclosed Hfresh. unfold children.
  apply map_empty. intros k'. apply map_lookup_filter_None_2.
  right. intros x Hk' [Hparent Hne]. simpl in *.
  rewrite lookup_insert_ne in Hk' by congruence.
  destruct (Hclosed k' x Hk') as [y Hy]. simpl in Hy. congruence.
Qed.

(** C5: at a path, canonically spelled, that names nothing yet, inside an
    existing directory: a task without content (or with a falsy one) gets a
    new, empty directory there; a task whose content holds a string [value]
    gets a new file there whose bytes are that string under the encoding
    the content names, [utf-8] when it names none, provided the codec
    exists and can encode the string.  Both return a success envelope and
    touch nothing else. *)
Theorem file_create_at_fresh_path (rt : runtime) (d : gmap string value)
    (w : world) (s : string) :
  d !! "path" = Some (VStr s) ->
  canonical (Path s) = true ->
  w_fs w !! path_str (Path s) = None ->
  w_fs w !! path_str (parent (Path s)) = Some Dir ->
  (truthy (default VNone (d !! "content")) = false ->
   exists r,
     task_file_create rt (VDict d) w =
       Ret r (set_fs w (<[path_str (Path s) := Dir]> (w_fs w))) /\
     correlates d r /\ is_success r /\
     (fs_closed (w_fs w) ->
      children (<[path_str (Path s) := Dir]> (w_fs w)) (path_str (Path s))
        = ∅)) /\
  (forall c v e enc bs,
     d !! "content" = Some (VDict c) ->
     c !! "value" = Some (VStr v) ->
     content_encoding c = VStr e ->
     lookup_codec rt e = Some enc ->
     enc v = Some bs ->
     exists r,
       task_file_create rt (VDict d) w =
         Ret r (set_fs w (<[path_str (Path s) := File bs]> (w_fs w))) /\
       correlates d r /\ is_success r) /\
  (forall c, c !! "encoding" = None -> content_encoding c = VStr "utf-8").
Proof.
  intros Hpath _ Hfresh Hparent. split; [|split].
  - intros Hcontent.
    rewrite (file_create_fresh_dir rt d w s) by assumption.
    rewrite make_task_success_dict. eexists. split; [reflexivity|].
    split; [split; reflexivity|]. split; [split; reflexivity|].
    intros Hclosed. by apply fresh_directory_empty.
  - intros c v e enc bs Hcontent Hvalue Hencoding Hcodec Henc.
    rewrite (file_create_fresh_file rt d w s c v e enc bs) by assumption.
    rewrite make_task_success_dict. eexists. split; [reflexivity|].
    split; split; reflexivity.
  - intros c Hnone. unfold content_encoding. by rewrite Hnone.
Qed.

Lemma example_world_closed : fs_closed (w_fs example_world).
Proof.
  unfold fs_closed. apply map_Forall_to_list.
  vm_compute. repeat constructor; eexists; reflexivity.
Qed.

Lemma file_create_at_fresh_path_witness :
  (exists r w',
     task_file_create example_runtime (VDict create_file_task)
       example_world = Ret r w' /\
     w_fs w' !! "/tmp/x/a.txt" = Some (File (list_byte_of_string "hi")) /\
     is_success r) /\
  (exists r w',
     task_file_create example_runtime (VDict create_directory_task)
       example_world = Ret r w' /\
     w_fs w' !! "/tmp/x/sub" = Some Dir /\
     children (w_fs w') "/tmp/x/sub" = ∅ /\
     is_success r).
Proof.
  split.
  - destruct (file_create_at_fresh_path example_runtime create_file_task
                example_world "/tmp/x/a.txt" eq_refl eq_refl eq_refl
                eq_refl)
      as (_ & Hfile & _).
    destruct (Hfile {[ "value" := VStr "hi" ]} "hi" "utf-8" encode_utf8
                (list_byte_of_string "hi"))
      as (r & Hrun & _ & Hok); try reflexivity.
    eexists r, _. split; [exact Hrun|]. split; [reflexivity|exact Hok].
  - destruct (file_create_at_fresh_path example_runtime
                create_directory_task example_world "/tmp/x/sub"
                eq_refl eq_refl eq_refl eq_refl)
      as (Hdir & _ & _).
    destruct Hdir as (r & Hrun & _ & Hok & Hempty); [reflexivity|].
    eexists r, _. split; [exact Hrun|]. split; [reflexivity|].
    split; [exact (Hempty example_world_closed)|exact Hok].
Defined.

(** ** file/edit *)

Lemma file_edit_prefix rt d w s :
  d !! "path" = Some (VStr s) ->
  task_file_edit rt (VDict d) w =
  match w_fs w !! path_str (Path s) with
  | None =>
      make_task_error (VDict d) "argument"
        ("A file or directory at path `" ++ path_str (Path s) ++
         "` does not exist") w
  | Some Dir =>
      make_task_error (VDict d) "argument"
        ("A directory at path `" ++ path_str (Path s) ++
         "` already exists") w
  | Some (File _) =>
      if truthy (default VNone (d !! "content")) then
        (let* encoding :=
           lift (py_get (default VNone (d !! "content")) "encoding"
                        (VStr DEFAULT_ENCODING)) in
         let* f := open_w rt (Path s) encoding in
         let* v :=
           lift (py_get (default VNone (d !! "content")) "value" VNone) in
         write f v ;;;
         make_task_success (VDict d)) w
      else
        make_task_error (VDict d) "argument"
          "`content` must exist for file editing" w
  end.
Proof.
  intros Hpath. unfold task_file_edit.
  rewrite (dict_with_key_truthy d _ _ Hpath). cbn [negb].
  unfold bind at 1. cbn [lift py_get ret]. rewrite Hpath.
  cbn [default from_option id].
  unfold bind at 1. cbn [lift path_of_value ret].
  unfold bind at 1. unfold path_exists.
  destruct (w_fs w !! path_str (Path s)) as [[old|]|] eqn:Hk;
    cbn [negb]; try reflexivity.
  - unfold bind at 1, is_dir. rewrite Hk.
    unfold bind at 1. cbn [lift py_get ret].
    destruct (truthy (default VNone (d !! "content"))); reflexivity.
  - unfold bind at 1, is_dir. rewrite Hk. reflexivity.
Qed.

Lemma file_edit_write rt d w s old c v e enc bs :
  d !! "path" = Some (VStr s) ->
  w_fs w !! path_str (Path s) = Some (File old) ->
  d !! "content" = Some (VDict c) ->
  c !! "value" = Some (VStr v) ->
  content_encoding c = VStr e ->
  lookup_codec rt e = Some enc ->
  enc v = Some bs ->
  task_file_edit rt (VDict d) w =
  make_task_success (VDict d)
    (set_fs w (<[path_str (Path s) := File bs]> (w_fs w))).
Proof.
  intros Hpath Hfile Hcontent Hvalue Hencoding Hcodec Henc.
  rewrite (file_edit_prefix rt d w s Hpath), Hfile, Hcontent.
  cbn [default from_option id].
  rewrite (dict_with_key_truthy c _ _ Hvalue).
  unfold open_w, open_raw_w, write.
  set (k := path_str (Path s)) in *. clearbody k.
  unfold bind, lift, py_get, ret, raise.
  fold (content_encoding c). rewrite Hencoding.
  rewrite (encoding_arg_known rt e enc Hcodec).
  rewrite Hfile, Hcodec, Hvalue.
  cbn [default from_option id f_encode f_key]. rewrite Henc.
  cbn [set_fs w_fs]. rewrite lookup_insert_eq. rewrite insert_insert_eq.
  reflexivity.
Qed.

(** C6: for a task with a [path], the handler returns an [argument] error
    when nothing is at the path (a path canonically spelled), when a
    directory is, and whenever the content is absent (or falsy), leaving
    the world as it was; for an existing file and a content holding a
    string [value] it puts exactly the bytes of that string, under the
    encoding the content names ([utf-8] by default), in place of the old
    ones and returns a success, provided the codec exists and can encode
    the string. *)
Theorem file_edit_contract (rt : runtime) (d : gmap string value)
    (w : world) (s : string) :
  d !! "path" = Some (VStr s) ->
  (canonical (Path s) = true ->
   w_fs w !! path_str (Path s) = None ->
   exists r,
     task_file_edit rt (VDict d) w = Ret r w /\ correlates d r /\
     is_error r "argument"
       ("A file or directory at path `" ++ path_str (Path s) ++
        "` does not exist")) /\
  (w_fs w !! path_str (Path s) = Some Dir ->
   exists r,
     task_file_edit rt (VDict d) w = Ret r w /\ correlates d r /\
     is_error r "argument"
       ("A directory at path `" ++ path_str (Path s) ++
        "` already exists")) /\
  (truthy (default VNone (d !! "content")) = false ->
   (w_fs w !! path_str (Path s) = None -> canonical (Path s) = true) ->
   exists r message,
     task_file_edit rt (VDict d) w = Ret r w /\ correlates d r /\
     is_error r "argument" message) /\
  (forall old c v e enc bs,
     w_fs w !! path_str (Path s) = Some (File old) ->
     d !! "content" = Some (VDict c) ->
     c !! "value" = Some (VStr v) ->
     content_encoding c = VStr e ->
     lookup_codec rt e = Some enc ->
     enc v = Some bs ->
     exists r,
       task_file_edit rt (VDict d) w =
         Ret r (set_fs w (<[path_str (Path s) := File bs]> (w_fs w))) /\
       correlates d r /\ is_success r) /\
  (forall c, c !! "encoding" = None -> content_encoding c = VStr "utf-8").
Proof.
  intros Hpath. split; [|split; [|split; [|split]]].
  - intros _ Hk. rewrite (file_edit_prefix rt d w s Hpath), Hk.
    rewrite make_task_error_dict. eexists.
    split; [reflexivity|]. repeat split.
  - intros Hk. rewrite (file_edit_prefix rt d w s Hpath), Hk.
    rewrite make_task_error_dict. eexists.
    split; [reflexivity|]. repeat split.
  - intros Hcontent _.
    rewrite (file_edit_prefix rt d w s Hpath), Hcontent.
    destruct (w_fs w !! path_str (Path s)) as [[old|]|];
      rewrite make_task_error_dict; eexists _, _;
      (split; [reflexivity|]); repeat split.
  - intros old c v e enc bs Hfile Hcontent Hvalue Hencoding Hcodec Henc.
    rewrite (file_edit_write rt d w s old c v e enc bs) by assumption.
    rewrite make_task_success_dict. eexists. split; [reflexivity|].
    split; split; reflexivity.
  - intros c Hnone. unfold content_encoding. by rewrite Hnone.
Qed.

Lemma file_edit_contract_witness :
  (exists r w',
     task_file_edit example_runtime (VDict edit_file_task) example_world =
       Ret r w' /\
     w_fs example_world !! "/tmp/x/old.txt" =
       Some (File (list_byte_of_string "old")) /\
     w_fs w' !! "/tmp/x/old.txt" =
       Some (File (list_byte_of_string "new")) /\
     is_success r) /\
  (exists r,
     task_file_edit example_runtime (VDict edit_missing_task)
       example_world = Ret r example_world /\
     is_error r "argument"
       "A file or directory at path `/tmp/x/missing` does not exist").
Proof.
  split.
  - destruct (file_edit_contract example_runtime edit_file_task
                example_world "/tmp/x/old.txt" eq_refl)
      as (_ & _ & _ & Hwrite & _).
    destruct (Hwrite (list_byte_of_string "old")
                {[ "value" := VStr "new"; "encoding" := VStr "ascii" ]}
                "new" "ascii" encode_ascii (list_byte_of_string "new"))
      as (r & Hrun & _ & Hok); try reflexivity.
    eexists r, _. split; [exact Hrun|].
    split; [reflexivity|]. split; [reflexivity|exact Hok].
  - destruct (file_edit_contract example_runtime edit_missing_task
                example_world "/tmp/x/missing" eq_refl)
      as (Hmissing & _).
    destruct (Hmissing eq_refl eq_refl) as (r & Hrun & _ & Herr).
    exists r. split; [exact Hrun|exact Herr].
Defined.

(** ** A content without value *)

(** C9 (as amended): when the content is a non-empty mapping without
    [value] whose encoding, given or default, is a string [open] accepts
    (one without the byte 0), file/create at a fresh path, canonically
    spelled, inside a directory and file/edit on an existing file both open
    the target for writing first, which leaves a file of zero bytes there,
    and then raise: [TypeError], from writing the null value, when the
    encoding names a codec, [LookupError] when it names none.  No envelope
    is returned although the file system has changed. *)
Theorem missing_value_raises_after_open (rt : runtime)
    (d c : gmap string value) (w : world) (s e : string) :
  d !! "path" = Some (VStr s) ->
  d !! "content" = Some (VDict c) ->
  truthy (VDict c) = true ->
  c !! "value" = None ->
  content_encoding c = VStr e ->
  has_nul e = false ->
  let failure := match lookup_codec rt e with
                 | Some _ => TypeError
                 | None => LookupError
                 end in
  (canonical (Path s) = true ->
   w_fs w !! path_str (Path s) = None ->
   w_fs w !! path_str (parent (Path s)) = Some Dir ->
   task_file_create rt (VDict d) w =
     Raise failure
       (set_fs w (<[path_str (Path s) := File []]> (w_fs w)))) /\
  (forall old,
     w_fs w !! path_str (Path s) = Some (File old) ->
     task_file_edit rt (VDict d) w =
       Raise failure
         (set_fs w (<[path_str (Path s) := File []]> (w_fs w)))).
Proof.
  intros Hpath Hcontent Htruthy Hvalue Hencoding Hnul failure. split.
  - intros _ Hfresh Hparent.
    rewrite (file_create_fresh_prefix rt d w s Hpath Hfresh).
    rewrite Hcontent. cbn [default from_option id].
    rewrite Htruthy. cbn [negb].
    unfold open_w, open_raw_w, write.
    set (k := path_str (Path s)) in *.
    set (pk := path_str (parent (Path s))) in *. clearbody k pk.
    unfold bind, lift, py_get, ret, raise.
    fold (content_encoding c). rewrite Hencoding. cbn [encoding_arg].
    rewrite Hnul, Hfresh, Hparent. subst failure.
    destruct (lookup_codec rt e); [|reflexivity]. by rewrite Hvalue.
  - intros old Hfile.
    rewrite (file_edit_prefix rt d w s Hpath), Hfile, Hcontent.
    cbn [default from_option id]. rewrite Htruthy.
    unfold open_w, open_raw_w, write.
    set (k := path_str (Path s)) in *. clearbody k.
    unfold bind, lift, py_get, ret, raise.
    fold (content_encoding c). rewrite Hencoding. cbn [encoding_arg].
    rewrite Hnul, Hfile. subst failure.
    destruct (lookup_codec rt e); [|reflexivity]. by rewrite Hvalue.
Qed.

Lemma missing_value_raises_after_open_witness :
  (exists w',
     task_file_create example_runtime (VDict create_without_value_task)
       example_world = Raise TypeError w' /\
     w_fs example_world !! "/tmp/x/a.txt" = None /\
     w_fs w' !! "/tmp/x/a.txt" = Some (File [])) /\
  (exists w',
     task_file_edit example_runtime (VDict edit_without_value_task)
       example_world = Raise TypeError w' /\
     w_fs example_world !! "/tmp/x/old.txt" =
       Some (File (list_byte_of_string "old")) /\
     w_fs w' !! "/tmp/x/old.txt" = Some (File [])) /\
  (exists w',
     task_file_create example_runtime (VDict create_unknown_encoding_task)
       example_world = Raise LookupError w' /\
     w_fs w' !! "/tmp/x/a.txt" = Some (File [])).
Proof.
  split; [|split].
  - destruct (missing_value_raises_after_open example_runtime
                create_without_value_task {[ "encoding" := VStr "utf-8" ]}
                example_world "/tmp/x/a.txt" "utf-8"
                eq_refl eq_refl eq_refl eq_refl eq_refl eq_refl)
      as [Hcreate _].
    eexists. split; [apply Hcreate; reflexivity|].
    split; reflexivity.
  - destruct (missing_value_raises_after_open example_runtime
                edit_without_value_task {[ "encoding" := VStr "utf-8" ]}
                example_world "/tmp/x/old.txt" "utf-8"
                eq_refl eq_refl eq_refl eq_refl eq_refl eq_refl)
      as [_ Hedit].
    eexists. split; [apply (Hedit (list_byte_of_string "old")); reflexivity|].
    split; reflexivity.
  - destruct (missing_value_raises_after_open example_runtime
                create_unknown_encoding_task
                {[ "encoding" := VStr "klingon" ]}
                example_world "/tmp/x/a.txt" "klingon"
                eq_refl eq_refl eq_refl eq_refl eq_refl eq_refl)
      as [Hcreate _].
    eexists. split; [apply Hcreate; reflexivity|reflexivity].
Defined.

(** C9 fails as stated: a content that is a non-empty mapping without
    [value] but with an encoding that is not a string (the number 5) makes
    [open] raise before it opens anything; file/create leaves the fresh
    path fresh, file/edit leaves the old bytes in the file. *)
Lemma non_string_encoding_raises_before_open :
  (create_numeric_encoding_task !! "content" =
     Some (VDict {[ "encoding" := VInt 5 ]}) /\
   truthy (VDict {[ "encoding" := VInt 5 ]}) = true /\
   ({[ "encoding" := VInt 5 ]} : gmap string value) !! "value" = None) /\
  (w_fs example_world !! "/tmp/x/a.txt" = None /\
   w_fs example_world !! "/tmp/x" = Some Dir /\
   task_file_create example_runtime (VDict create_numeric_encoding_task)
     example_world = Raise TypeError example_world) /\
  (w_fs example_world !! "/tmp/x/old.txt" =
     Some (File (list_byte_of_string "old")) /\
   task_file_edit example_runtime (VDict edit_numeric_encoding_task)
     example_world = Raise TypeError example_world).
Proof. repeat split. Qed.

(** ** command/run: the child process *)

(** What the handler does for a listed command: one child, [/bin/sh -c]
    followed by the command and the arguments, in the working directory and
    environment asked for; the handler blocks while the child runs and
    raises when it exits with a non-zero status. *)
Lemma command_run_spawns rt d w c args argv child_env child_cwd :
  d !! "command" = Some (VStr c) -> In c SAFE_COMMANDS ->
  default (VList []) (d !! "arguments") = VList args ->
  str_list args = inr argv ->
  env_arg rt (default VNone (d !! "environment")) (w_environ w)
    = inr child_env ->
  env_c_strings (default VNone (d !! "environment")) = true ->
  cwd_arg (default VNone (d !! "path")) w = inr child_cwd ->
  let p := {| p_argv := "/bin/sh" :: "-c" :: c :: argv;
              p_cwd := child_cwd;
              p_env := child_env |} in
  task_command_run rt (VDict d) w =
  match run_child rt p (w_fs w) with
  | None => Hang
  | Some (code, fs') =>
      if (code =? 0)%Z
      then make_task_success (VDict d) (set_fs (log_spawn w p) fs')
      else Raise (CalledProcessError code) (set_fs (log_spawn w p) fs')
  end.
Proof.
  intros Hcmd Hin Hargs Hargv Henv Hnul Hcwd p.
  rewrite (command_run_listed rt d w c Hcmd Hin), Hargs.
  unfold bind at 1. cbn [lift list_add ret].
  unfold bind at 1, subprocess_run.
  rewrite Henv. cbn [app str_list str_value].
  rewrite (listed_no_nul c Hin), Hargv, Hnul, Hcwd. cbn [negb].
  fold p. destruct (run_child rt p (w_fs w)) as [[code fs']|]; [|done].
  cbn [andb]. by destruct (code =? 0)%Z.
Qed.

(** The shell started that way runs the command alone. *)
Lemma shell_drops_arguments c argv :
  In c SAFE_COMMANDS ->
  sh_c_command ("/bin/sh" :: "-c" :: c :: argv) = Some [c].
Proof.
  unfold SAFE_COMMANDS. simpl.
  intros [<-|[<-|[<-|[<-|[]]]]]; reflexivity.
Qed.

(** C1, on the task [{id: 1, action: command/run, command: git, arguments:
    [status]}]: the handler starts [/bin/sh -c git status] in the server's
    working directory with the server's environment and waits for it; the
    shell takes [status] as its own [$0], so the command it runs is [git]
    with no argument at all. *)
Theorem command_run_arguments_reach_the_shell (rt : runtime) :
  let p := {| p_argv := ["/bin/sh"; "-c"; "git"; "status"];
              p_cwd := w_cwd example_world;
              p_env := w_environ example_world |} in
  task_command_run rt (VDict git_status_task) example_world =
    match run_child rt p (w_fs example_world) with
    | None => Hang
    | Some (code, fs') =>
        if (code =? 0)%Z
        then make_task_success (VDict git_status_task)
               (set_fs (log_spawn example_world p) fs')
        else Raise (CalledProcessError code)
               (set_fs (log_spawn example_world p) fs')
    end /\
  sh_c_command (p_argv p) = Some ["git"] /\
  sh_c_command (p_argv p) <> Some ["git"; "status"].
Proof.
  intros p. split; [|split; [reflexivity|discriminate]].
  apply (command_run_spawns rt git_status_task example_world "git"
           [VStr "status"] ["status"]); try reflexivity.
  unfold SAFE_COMMANDS. simpl. tauto.
Qed.

(** ** The scenarios, through the dispatcher *)

Example run_task_creates_file :
  exists w',
    run_task example_runtime (loaded_handlers example_runtime)
      (VDict create_file_task) example_world = Ret "<json>" w' /\
    w_fs w' !! "/tmp/x/a.txt" = Some (File (list_byte_of_string "hi")) /\
    w_fs w' !! "/tmp/x/old.txt" = Some (File (list_byte_of_string "old")).
Proof. eexists. split; [reflexivity|]. split; reflexivity. Qed.

Example run_task_deletes_directory :
  exists w',
    run_task example_runtime (loaded_handlers example_runtime)
      (VDict delete_directory_task) example_world = Ret "<json>" w' /\
    w_fs w' !! "/tmp/x" = None /\
    w_fs w' !! "/tmp/x/old.txt" = None /\
    w_fs w' !! "/tmp" = Some Dir.
Proof. eexists. split; [reflexivity|]. repeat split. Qed.

(** ** file/delete *)

Lemma file_delete_prefix d w s :
  d !! "path" = Some (VStr s) ->
  task_file_delete (VDict d) w =
  match w_fs w !! path_str (Path s) with
  | None =>
      make_task_error (VDict d) "argument"
        ("A file or directory at path `" ++ path_str (Path s) ++
         "` does not exist") w
  | Some Dir => (rmtree (Path s) ;;; make_task_success (VDict d)) w
  | Some (File _) => (unlink (Path s) ;;; make_task_success (VDict d)) w
  end.
Proof.
  intros Hpath. unfold task_file_delete.
  rewrite (dict_with_key_truthy d _ _ Hpath). cbn [negb].
  unfold bind at 1. cbn [lift py_get ret]. rewrite Hpath.
  cbn [default from_option id].
  unfold bind at 1. cbn [lift path_of_value ret].
  unfold bind at 1. unfold path_exists.
  destruct (w_fs w !! path_str (Path s)) as [[old|]|] eqn:Hk;
    cbn [negb]; try reflexivity.
  - unfold bind at 1, is_dir. rewrite Hk. reflexivity.
  - unfold bind at 1, is_dir. rewrite Hk. reflexivity.
Qed.

(** X1: file/delete on a path, canonically spelled, at which nothing exists
    returns an [argument] error envelope that names the path and carries
    the task's id and action, and leaves the world as it was. *)
Theorem file_delete_missing (d : gmap string value) (w : world) (s : string) :
  d !! "path" = Some (VStr s) ->
  canonical (Path s) = true ->
  w_fs w !! path_str (Path s) = None ->
  exists r,
    task_file_delete (VDict d) w = Ret r w /\ correlates d r /\
    is_error r "argument"
      ("A file or directory at path `" ++ path_str (Path s) ++
       "` does not exist").
Proof.
  intros Hpath _ Hk. rewrite (file_delete_prefix d w s Hpath), Hk.
  rewrite make_task_error_dict. eexists.
  split; [reflexivity|]. repeat split.
Qed.

Lemma file_delete_missing_witness :
  exists r,
    task_file_delete (VDict delete_missing_task) example_world =
      Ret r example_world /\
    is_error r "argument"
      "A file or directory at path `/tmp/x/missing` does not exist".
Proof.
  destruct (file_delete_missing delete_missing_task example_world
              "/tmp/x/missing" eq_refl eq_refl eq_refl)
    as (r & Hrun & _ & Herr).
  exists r. split; assumption.
Defined.

(** X2: file/delete on a path that holds a file returns a success
    envelope with the task's id and action; the world afterwards is the
    world before without that one entry. *)
Theorem file_delete_file (d : gmap string value) (w : world) (s : string)
    (old : list byte) :
  d !! "path" = Some (VStr s) ->
  w_fs w !! path_str (Path s) = Some (File old) ->
  exists r,
    task_file_delete (VDict d) w =
      Ret r (set_fs w (delete (path_str (Path s)) (w_fs w))) /\
    correlates d r /\ is_success r.
Proof.
  intros Hpath Hk. rewrite (file_delete_prefix d w s Hpath), Hk.
  unfold bind at 1, unlink. rewrite Hk.
  rewrite make_task_success_dict. eexists.
  split; [reflexivity|]. split; split; reflexivity.
Qed.

Lemma file_delete_file_witness :
  exists r w',
    task_file_delete (VDict delete_file_task) example_world = Ret r w' /\
    w_fs w' !! "/tmp/x/old.txt" = None /\
    w_fs w' !! "/tmp/x" = Some Dir /\
    is_success r.
Proof.
  destruct (file_delete_file delete_file_task example_world
              "/tmp/x/old.txt" (list_byte_of_string "old") eq_refl eq_refl)
    as (r & Hrun & _ & Hok).
  eexists r, _. split; [exact Hrun|].
  split; [reflexivity|]. split; [reflexivity|exact Hok].
Defined.



(** ** What the handlers leave alone *)

Lemma ends_bind {A B} (m : io A) (k : A -> io B) w Q E :
  ends m w (fun a w1 => ends (k a) w1 Q E) E -> ends (bind m k) w Q E.
Proof. unfold ends, bind. by destruct (m w). Qed.

Lemma ends_lift {A} (x : exn + A) w (Q : A -> world -> Prop) (E : world -> Prop) :
  match x with inr a => Q a w | inl _ => E w end -> ends (lift x) w Q E.
Proof. unfold ends. by destruct x. Qed.

Lemma ends_get d k dflt w (Q : value -> world -> Prop) (E : world -> Prop) :
  Q (default dflt (d !! k)) w -> ends (lift (py_get (VDict d) k dflt)) w Q E.
Proof. intros H. by apply ends_lift. Qed.

Lemma ends_success d w (Q : value -> world -> Prop) E :
  Q (VDict {[ "id" := default VNone (d !! "id");
              "action" := default VNone (d !! "action");
              "success" := VBool true ]}) w ->
  ends (make_task_success (VDict d)) w Q E.
Proof. done. Qed.

Lemma ends_error d type message w (Q : value -> world -> Prop) E :
  Q (VDict {[ "id" := default VNone (d !! "id");
              "action" := default VNone (d !! "action");
              "success" := VBool false;
              "error" := VDict {[ "type" := VStr type;
                                  "message" := VStr message ]} ]}) w ->
  ends (make_task_error (VDict d) type message) w Q E.
Proof. done. Qed.

Lemma ends_final {A} (m : io A) w (P : world -> Prop) :
  ends m w (fun _ => P) P <-> (forall w', final_world (m w) = Some w' -> P w').
Proof.
  unfold ends, final_world. destruct (m w); split; try done.
  - by intros H w' [= <-].
  - auto.
  - by intros H w' [= <-].
  - auto.
Qed.

Lemma ends_path_exists p w (Q : bool -> world -> Prop) E :
  Q (match w_fs w !! path_str p with Some _ => true | None => false end) w ->
  ends (path_exists p) w Q E.
Proof. unfold ends, path_exists. by destruct (w_fs w !! path_str p). Qed.

Lemma ends_is_dir p w (Q : bool -> world -> Prop) E :
  Q (match w_fs w !! path_str p with Some Dir => true | _ => false end) w ->
  ends (is_dir p) w Q E.
Proof.
  unfold ends, is_dir. by destruct (w_fs w !! path_str p) as [[]|].
Qed.

Lemma ends_mkdir p w (Q : unit -> world -> Prop) (E : world -> Prop) :
  E w ->
  (w_fs w !! path_str p = None ->
   w_fs w !! path_str (parent p) = Some Dir ->
   Q tt (set_fs w (<[path_str p := Dir]> (w_fs w)))) ->
  ends (mkdir p) w Q E.
Proof.
  intros HE HQ. unfold ends, mkdir.
  destruct (w_fs w !! path_str p); [done|].
  destruct (w_fs w !! path_str (parent p)) as [[]|]; auto.
Qed.

Lemma ends_open_raw_w p w (Q : unit -> world -> Prop) (E : world -> Prop) :
  E w ->
  ((w_fs w !! path_str p = None /\
    w_fs w !! path_str (parent p) = Some Dir) \/
   (exists old, w_fs w !! path_str p = Some (File old)) ->
   Q tt (set_fs w (<[path_str p := File []]> (w_fs w)))) ->
  ends (open_raw_w p) w Q E.
Proof.
  intros HE HQ. unfold ends, open_raw_w.
  destruct (w_fs w !! path_str p) as [[old|]|]; [eauto|done|].
  destruct (w_fs w !! path_str (parent p)) as [[]|]; auto.
Qed.

Lemma ends_open_w rt p encoding w (Q : text_file -> world -> Prop)
    (E : world -> Prop) :
  E w ->
  ((w_fs w !! path_str p = None /\
    w_fs w !! path_str (parent p) = Some Dir) \/
   (exists old, w_fs w !! path_str p = Some (File old)) ->
   let w1 := set_fs w (<[path_str p := File []]> (w_fs w)) in
   E w1 /\
   forall enc, Q {| f_key := path_str p; f_encode := enc |} w1) ->
  ends (open_w rt p encoding) w Q E.
Proof.
  intros HE HQ. unfold open_w. apply ends_bind, ends_lift.
  destruct (encoding_arg rt encoding) as [|name]; [done|].
  apply ends_bind, ends_open_raw_w; [done|]. intros Hk.
  destruct (HQ Hk) as [HE1 HQ1].
  destruct (lookup_codec rt name); [apply HQ1|apply HE1].
Qed.

Lemma ends_write f v w (Q : unit -> world -> Prop) (E : world -> Prop) :
  E w ->
  (forall old bs, w_fs w !! f_key f = Some (File old) ->
     Q tt (set_fs w (<[f_key f := File (old ++ bs)]> (w_fs w)))) ->
  ends (write f v) w Q E.
Proof.
  intros HE HQ. unfold ends, write.
  destruct v; try done. destruct (f_encode f s); [|done].
  destruct (w_fs w !! f_key f) as [[old|]|] eqn:Hk; auto.
Qed.

Ltac ends_step :=
  cbv beta;
  lazymatch goal with
  | |- ends (bind _ _) _ _ _ => apply ends_bind
  | |- ends (lift (py_get (VDict _) _ _)) _ _ _ => apply ends_get
  | |- ends (make_task_success (VDict _)) _ _ _ => apply ends_success
  | |- ends (make_task_error (VDict _) _ _) _ _ _ => apply ends_error
  | |- ends (path_exists _) _ _ _ => apply ends_path_exists
  | |- ends (is_dir _) _ _ _ => apply ends_is_dir
  | |- ends (lift _) _ _ _ => apply ends_lift
  end.

Ltac stays :=
  cbv beta;
  first [ right; split; [eexists; split; reflexivity | reflexivity]
        | left; reflexivity ].
Ltac succeeds := cbv beta; left; split; [split; reflexivity|].

Lemma file_create_guarantees rt d w :
  guarantees (task_file_create rt) (creates d) d w.
Proof.
  unfold guarantees, task_file_create.
  destruct (truthy (VDict d)); cbn [negb]; [|ends_step; stays].
  repeat ends_step.
  destruct (d !! "path") as [[| | |s| |]|] eqn:Hpath;
    cbn [default from_option id];
    repeat ends_step; cbn [path_of_value]; try stays.
  cbv beta. repeat ends_step.
  destruct (w_fs w !! path_str (Path s)) as [n|] eqn:Hk; cbv beta iota;
    [ends_step; stays|].
  repeat ends_step.
  set (content := default VNone (d !! "content")). clearbody content.
  destruct (truthy content); cbn [negb].
  - ends_step.
    destruct content as [| | | | |c]; ends_step; cbn [py_get]; try stays.
    cbv beta. ends_step. apply ends_open_w; [stays|].
    intros [[_ Hparent]|[old Hold]]; [|congruence]. cbn zeta.
    split; [right; by exists s, (File [])|]. intros enc.
    repeat ends_step. apply ends_write; [right; by exists s, (File [])|].
    intros old bs _. cbn [f_key set_fs w_fs]. rewrite insert_insert_eq.
    ends_step. succeeds. by exists s, (File (old ++ bs)).
  - apply ends_mkdir; [stays|]. intros _ Hparent.
    ends_step. succeeds. by exists s, Dir.
Qed.

Lemma file_edit_guarantees rt d w :
  guarantees (task_file_edit rt) (edits d) d w.
Proof.
  unfold guarantees, task_file_edit.
  destruct (truthy (VDict d)); cbn [negb]; [|ends_step; stays].
  repeat ends_step.
  destruct (d !! "path") as [[| | |s| |]|] eqn:Hpath;
    cbn [default from_option id];
    repeat ends_step; cbn [path_of_value]; try stays.
  cbv beta. repeat ends_step.
  destruct (w_fs w !! path_str (Path s)) as [[old|]|] eqn:Hk;
    cbv beta iota; cbn [negb]; repeat ends_step; try stays;
    rewrite Hk; cbv beta iota; repeat ends_step; try stays.
  set (content := default VNone (d !! "content")). clearbody content.
  destruct (truthy content); cbn [negb]; [|ends_step; stays].
  ends_step.
  destruct content as [| | | | |c]; ends_step; cbn [py_get]; try stays.
  cbv beta. ends_step. apply ends_open_w; [stays|].
  intros _. cbn zeta.
  split; [right; by exists s, old, []|]. intros enc.
  repeat ends_step. apply ends_write; [right; by exists s, old, []|].
  intros old' bs _. cbn [f_key set_fs w_fs]. rewrite insert_insert_eq.
  ends_step. succeeds. by exists s, old, (old' ++ bs)%list.
Qed.

Lemma ends_unlink p w (Q : unit -> world -> Prop) (E : world -> Prop) :
  E w ->
  (forall old, w_fs w !! path_str p = Some (File old) ->
     Q tt (set_fs w (delete (path_str p) (w_fs w)))) ->
  ends (unlink p) w Q E.
Proof.
  intros HE HQ. unfold ends, unlink.
  destruct (w_fs w !! path_str p) as [[old|]|]; eauto.
Qed.

Lemma ends_rmtree p w (Q : unit -> world -> Prop) (E : world -> Prop) :
  E w ->
  (w_fs w !! path_str p = Some Dir ->
   let emptied :=
     filter (fun kv => is_under p (Path kv.1) = false) (w_fs w) in
   E (set_fs w emptied) /\
   Q tt (set_fs w (delete (path_str p) emptied))) ->
  ends (rmtree p) w Q E.
Proof.
  intros HE HQ. unfold ends, rmtree.
  destruct (w_fs w !! path_str p) as [[old|]|]; [done| |done].
  destruct (HQ eq_refl) as [HE1 HQ1]. by destruct (tail p).
Qed.

Lemma ends_subprocess_run rt args cwd env w
    (Q : unit -> world -> Prop) (E : world -> Prop) :
  E w ->
  (forall argv child_cwd child_env (code : Z) fs',
     str_list args = inr argv ->
     let p := {| p_argv := "/bin/sh" :: "-c" :: argv;
                 p_cwd := child_cwd; p_env := child_env |} in
     E (set_fs (log_spawn w p) fs') /\
     Q tt (set_fs (log_spawn w p) fs')) ->
  ends (subprocess_run rt args cwd env true true) w Q E.
Proof.
  intros HE HQ. unfold ends, subprocess_run.
  destruct (env_arg _ _ _) as [|child_env]; [done|].
  destruct (str_list args) as [|argv] eqn:Hargs; [done|].
  destruct (env_c_strings env); cbn [negb]; [|done].
  destruct (cwd_arg _ _) as [|child_cwd]; [done|].
  destruct (run_child _ _ _) as [[code fs']|]; [|done].
  destruct (HQ argv child_cwd child_env code fs' eq_refl) as [HE1 HQ1].
  cbn [andb app]. by destruct (code =? 0)%Z.
Qed.

Lemma file_delete_guarantees d w :
  guarantees task_file_delete (deletes d) d w.
Proof.
  unfold guarantees, task_file_delete.
  destruct (truthy (VDict d)); cbn [negb]; [|ends_step; stays].
  repeat ends_step.
  destruct (d !! "path") as [[| | |s| |]|] eqn:Hpath;
    cbn [default from_option id];
    repeat ends_step; cbn [path_of_value]; try stays.
  cbv beta. repeat ends_step.
  destruct (w_fs w !! path_str (Path s)) as [[old|]|] eqn:Hk;
    cbv beta iota; cbn [negb]; repeat ends_step; try stays;
    rewrite Hk; cbv beta iota.
  - apply ends_unlink; [stays|]. intros _ _. ends_step. succeeds.
    exists s, (delete (path_str (Path s)) (w_fs w)).
    split; [done|]. split; [done|]. split; [apply delete_subseteq|].
    intros k Hne _. by rewrite lookup_delete_ne.
  - assert (forall k, k <> path_str (Path s) ->
              is_under (Path s) (Path k) = false ->
              filter (fun kv => is_under (Path s) (Path kv.1) = false)
                     (w_fs w) !! k = w_fs w !! k) as Hframe.
    { intros k _ Hunder. destruct (w_fs w !! k) as [n|] eqn:Hn.
      - by apply map_lookup_filter_Some_2.
      - apply map_lookup_filter_None_2. by left. }
    apply ends_rmtree; [stays|]. intros _. cbn zeta. split.
    + right. eexists s, _. split; [done|]. split; [done|].
      split; [apply map_filter_subseteq|]. exact Hframe.
    + ends_step. succeeds. eexists s, _.
      split; [done|]. split; [done|]. split.
      * etrans; [apply delete_subseteq|apply map_filter_subseteq].
      * intros k Hne Hunder. rewrite lookup_delete_ne by done. by apply Hframe.
Qed.

Lemma in_strings_inv v l : in_strings v l = true -> exists c, v = VStr c /\ In c l.
Proof.
  destruct v; try discriminate. intros H. eexists. split; [done|].
  by apply in_strings_In.
Qed.

Lemma command_run_guarantees rt d w :
  guarantees (task_command_run rt) spawns d w.
Proof.
  unfold guarantees, task_command_run.
  destruct (truthy (VDict d)); cbn [negb]; [|ends_step; stays].
  repeat ends_step.
  set (cmd := default VNone (d !! "command")). clearbody cmd.
  destruct (truthy cmd); cbn [negb]; [|ends_step; stays].
  destruct (in_strings cmd SAFE_COMMANDS) eqn:Hin; cbn [negb];
    [|ends_step; stays].
  apply in_strings_inv in Hin as (c & -> & Hin).
  repeat ends_step.
  destruct (default (VList []) (d !! "arguments")); cbn [list_add]; try stays.
  repeat ends_step. apply ends_subprocess_run; [stays|].
  intros argv child_cwd child_env code fs' Hargv. cbn zeta.
  cbn [app str_list str_value] in Hargv.
  rewrite (listed_no_nul c Hin) in Hargv.
  destruct (str_list l) as [|rest]; [discriminate|]. injection Hargv as <-.
  split.
  - right. by eexists c, rest, child_cwd, child_env, fs'.
  - ends_step. succeeds. by eexists c, rest, child_cwd, child_env, fs'.
Qed.


Lemma guarantees_final h S d w w' :
  guarantees h S d w -> final_world (h (VDict d) w) = Some w' ->
  w' = w \/ S w w'.
Proof.
  unfold guarantees, ends, final_world.
  destruct (h (VDict d) w); intros H [= <-]; [|exact H].
  destruct H as [[_ H]|[_ H]]; auto.
Qed.

Lemma guarantees_error h S d w r w' type message :
  guarantees h S d w -> h (VDict d) w = Ret r w' ->
  is_error r type message -> w' = w.
Proof.
  unfold guarantees, ends. intros H Hrun Herr. rewrite Hrun in H.
  destruct H as [[Hok _]|[_ Hsame]]; [|done].
  destruct (error_not_success _ _ _ Herr Hok).
Qed.

Lemma guarantees_success h S d w r w' :
  guarantees h S d w -> h (VDict d) w = Ret r w' ->
  is_success r -> S w w'.
Proof.
  unfold guarantees, ends. intros H Hrun Hok. rewrite Hrun in H.
  destruct H as [[_ HS]|[[message Herr] _]]; [done|].
  destruct (error_not_success _ _ _ Herr Hok).
Qed.

(** X4: for a task whose path is canonically spelled, in a file system of
    directories and regular files: however file/create ends, with an
    envelope or with an exception, every entry the file system had is still
    there unchanged; the only entry that can be new is the one at the
    task's path, inside a directory that was there; the working directory,
    the environment and the list of spawned processes are as before. *)
Theorem file_create_frame (rt : runtime) (d : gmap string value)
    (w w' : world) :
  canonical_task d ->
  final_world (task_file_create rt (VDict d) w) = Some w' ->
  (forall k n, w_fs w !! k = Some n -> w_fs w' !! k = Some n) /\
  (forall k, w_fs w !! k = None -> is_Some (w_fs w' !! k) ->
     exists s, d !! "path" = Some (VStr s) /\ k = path_str (Path s) /\
               w_fs w !! path_str (parent (Path s)) = Some Dir) /\
  w_cwd w' = w_cwd w /\ w_environ w' = w_environ w /\
  w_spawned w' = w_spawned w.
Proof.
  intros _ Hend.
  destruct (guarantees_final _ _ d w w' (file_create_guarantees rt d w) Hend)
    as [->|(s & n & Hpath & Hfresh & Hparent & ->)].
  - repeat split; try done. intros k Hnone [x Hx]. congruence.
  - cbn [set_fs w_fs w_cwd w_environ w_spawned]. repeat split.
    + intros k x Hk. rewrite lookup_insert_ne by congruence. done.
    + intros k Hnone [x Hx]. exists s.
      destruct (decide (path_str (Path s) = k)) as [<-|Hne]; [done|].
      rewrite lookup_insert_ne in Hx by done. congruence.
Qed.

Lemma file_create_frame_witness :
  exists w',
    final_world
      (task_file_create example_runtime (VDict create_without_value_task)
         example_world) = Some w' /\
    w_fs w' !! "/tmp/x/old.txt" = Some (File (list_byte_of_string "old")) /\
    w_spawned w' = [].
Proof.
  eexists. split; [reflexivity|].
  destruct (file_create_frame example_runtime create_without_value_task
              example_world
              (set_fs example_world
                 (<["/tmp/x/a.txt" := File []]> (w_fs example_world))))
    as (Hkept & _ & _ & _ & Hspawned).
  - intros s Hs.
    change (Some (VStr "/tmp/x/a.txt") = Some (VStr s)) in Hs.
    injection Hs as <-. reflexivity.
  - reflexivity.
  - split; [|exact Hspawned]. apply Hkept. reflexivity.
Defined.

(** X5: for a task whose path is canonically spelled, in a file system of
    directories and regular files: however file/edit ends, the file system
    has the same paths as before and every entry is unchanged, except that
    the file at the task's path may hold new bytes; directories, the
    working directory, the environment and the list of spawned processes
    are as before. *)
Theorem file_edit_frame (rt : runtime) (d : gmap string value)
    (w w' : world) :
  canonical_task d ->
  final_world (task_file_edit rt (VDict d) w) = Some w' ->
  (forall k, w_fs w' !! k = w_fs w !! k \/
             exists s old bs,
               d !! "path" = Some (VStr s) /\ k = path_str (Path s) /\
               w_fs w !! k = Some (File old) /\
               w_fs w' !! k = Some (File bs)) /\
  dom (w_fs w') = dom (w_fs w) /\
  w_cwd w' = w_cwd w /\ w_environ w' = w_environ w /\
  w_spawned w' = w_spawned w.
Proof.
  intros _ Hend.
  destruct (guarantees_final _ _ d w w' (file_edit_guarantees rt d w) Hend)
    as [->|(s & old & bs & Hpath & Hfile & ->)].
  - repeat split; by left.
  - cbn [set_fs w_fs w_cwd w_environ w_spawned]. repeat split.
    + intros k. destruct (decide (path_str (Path s) = k)) as [<-|Hne].
      * right. exists s, old, bs. by rewrite lookup_insert_eq.
      * left. by rewrite lookup_insert_ne.
    + apply dom_insert_lookup_L. by eexists.
Qed.

Lemma file_edit_frame_witness :
  exists w',
    final_world
      (task_file_edit example_runtime (VDict edit_unknown_encoding_task)
         example_world) = Some w' /\
    dom (w_fs w') = dom (w_fs example_world).
Proof.
  eexists. split; [reflexivity|].
  destruct (file_edit_frame example_runtime edit_unknown_encoding_task
              example_world
              (set_fs example_world
                 (<["/tmp/x/old.txt" := File []]> (w_fs example_world))))
    as (_ & Hdom & _).
  - intros s Hs.
    change (Some (VStr "/tmp/x/old.txt") = Some (VStr s)) in Hs.
    injection Hs as <-. reflexivity.
  - reflexivity.
  - exact Hdom.
Defined.

(** X6: for a task whose path is canonically spelled, in a file system of
    directories and regular files: however file/delete ends, it has added
    nothing and altered nothing: what is left of the file system is part of
    what was there, and an entry can only be gone if it is the one at the
    task's path or lies below it. *)
Theorem file_delete_frame (d : gmap string value) (w w' : world) :
  canonical_task d ->
  final_world (task_file_delete (VDict d) w) = Some w' ->
  w_fs w' ⊆ w_fs w /\
  (forall k, w_fs w' !! k = w_fs w !! k \/
             exists s, d !! "path" = Some (VStr s) /\
                       (k = path_str (Path s) \/
                        is_under (Path s) (Path k) = true)) /\
  w_cwd w' = w_cwd w /\ w_environ w' = w_environ w /\
  w_spawned w' = w_spawned w.
Proof.
  intros _ Hend.
  destruct (guarantees_final _ _ d w w' (file_delete_guarantees d w) Hend)
    as [->|(s & fs' & Hpath & -> & Hsub & Hframe)].
  - split; [done|]. split; [intros k; by left|done].
  - cbn [set_fs w_fs w_cwd w_environ w_spawned].
    split; [done|]. split; [|done].
    intros k. destruct (decide (k = path_str (Path s))) as [->|Hne].
    + right. exists s. auto.
    + destruct (is_under (Path s) (Path k)) eqn:Hunder.
      * right. exists s. auto.
      * left. by apply Hframe.
Qed.

Lemma file_delete_frame_witness :
  exists w',
    final_world (task_file_delete (VDict delete_directory_task)
                   example_world) = Some w' /\
    w_fs w' ⊆ w_fs example_world.
Proof.
  eexists. split; [reflexivity|].
  apply (file_delete_frame delete_directory_task example_world).
  - intros s Hs.
    change (Some (VStr "/tmp/x/") = Some (VStr s)) in Hs.
    injection Hs as <-. reflexivity.
  - reflexivity.
Defined.

(** X7: an error envelope means nothing has happened: whenever one of the
    four handlers returns an envelope that carries an error, the world is
    exactly the one the handler started in. *)
Theorem error_envelope_changes_nothing (rt : runtime) (h : handler)
    (d : gmap string value) (w w' : world) (r : value)
    (type message : string) :
  In h (map snd (TASKS rt)) ->
  h (VDict d) w = Ret r w' ->
  is_error r type message ->
  w' = w.
Proof.
  simpl. intros [<-|[<-|[<-|[<-|[]]]]] Hrun Herr.
  - exact (guarantees_error _ _ d w r w' _ _
             (file_create_guarantees rt d w) Hrun Herr).
  - exact (guarantees_error _ _ d w r w' _ _
             (file_edit_guarantees rt d w) Hrun Herr).
  - exact (guarantees_error _ _ d w r w' _ _
             (file_delete_guarantees d w) Hrun Herr).
  - exact (guarantees_error _ _ d w r w' _ _
             (command_run_guarantees rt d w) Hrun Herr).
Qed.

Lemma error_envelope_changes_nothing_witness :
  exists r w',
    task_file_edit example_runtime
      (VDict {[ "id" := VStr "17"; "path" := VStr "/tmp/x" ]})
      example_world = Ret r w' /\
    is_error r "argument" "A directory at path `/tmp/x` already exists" /\
    w' = example_world.
Proof.
  eexists _, _. split; [reflexivity|]. split; [split; reflexivity|].
  eapply (error_envelope_changes_nothing example_runtime
            (task_file_edit example_runtime)
            {[ "id" := VStr "17"; "path" := VStr "/tmp/x" ]}
            example_world).
  - simpl. tauto.
  - reflexivity.
  - split; reflexivity.
Defined.

(** ** The registry *)

(** X8: an action resolves to a handler exactly when it is a non-empty
    string the table binds to that handler; every other value, and every
    unbound or empty name, makes the lookup raise. *)
Theorem resolve_iff (rt : runtime) (table : gmap string handler)
    (action : value) (h : handler) :
  get_task_action_handler rt table action = inr h <->
  exists a, action = VStr a /\ a <> "" /\ table !! a = Some h.
Proof.
  unfold get_task_action_handler. split.
  - destruct action as [|b|z|a|l|m]; cbn [truthy negb].
    + discriminate.
    + destruct b; discriminate.
    + destruct (negb (z =? 0)%Z); discriminate.
    + destruct a as [|c a']; [discriminate|]. cbn [negb].
      destruct (table !! String c a') as [h'|] eqn:Hbound; [|discriminate].
      intros [= <-]. by exists (String c a').
    + destruct l; discriminate.
    + destruct (negb (size m =? 0)%nat); discriminate.
  - intros (a & -> & Hne & Hbound). rewrite (nonempty_truthy a Hne).
    cbn [negb]. by rewrite Hbound.
Qed.

(** X9: registering under a free name succeeds; afterwards that name, if
    it is not empty, resolves to the handler just registered and every
    other name resolves as it did before.  A handler registered under the
    empty name can never be resolved. *)
Theorem register_then_resolve (rt : runtime) (table : gmap string handler)
    (a : string) (h : handler) :
  table !! a = None ->
  exists table',
    register_task_action_handler a h table = inr table' /\
    (a <> "" -> get_task_action_handler rt table' (VStr a) = inr h) /\
    (forall b, b <> a ->
       get_task_action_handler rt table' (VStr b) =
       get_task_action_handler rt table (VStr b)) /\
    (a = "" ->
     get_task_action_handler rt table' (VStr a) =
       inl (ValueError "`handler` must be specified")).
Proof.
  intros Hfree. unfold register_task_action_handler. rewrite Hfree.
  eexists. split; [reflexivity|]. split; [|split].
  - intros Hne. apply resolve_iff. exists a.
    by rewrite lookup_insert_eq.
  - intros b Hne. unfold get_task_action_handler.
    by rewrite lookup_insert_ne.
  - by intros ->.
Qed.

Lemma register_then_resolve_witness :
  exists table',
    register_task_action_handler "file/move" task_file_delete
      (loaded_handlers example_runtime) = inr table' /\
    get_task_action_handler example_runtime table' (VStr "file/move") =
      inr task_file_delete /\
    get_task_action_handler example_runtime table' (VStr "file/edit") =
      inr (task_file_edit example_runtime).
Proof.
  destruct (register_then_resolve example_runtime
              (loaded_handlers example_runtime) "file/move"
              task_file_delete eq_refl)
    as (table' & Hregister & Hnew & Hold & _).
  exists table'. split; [exact Hregister|]. split.
  - apply Hnew. discriminate.
  - rewrite (Hold "file/edit"); [reflexivity|discriminate].
Defined.

Lemma register_all_foldl tasks :
  register_all tasks = foldl register_step (inr ∅) tasks.
Proof. reflexivity. Qed.

Lemma register_step_inl e tasks : foldl register_step (inl e) tasks = inl e.
Proof. induction tasks as [|[a h] tasks IH]; [done|]. exact IH. Qed.

Lemma register_all_from (tasks : list (string * handler))
    (acc : gmap string handler) :
  (NoDup tasks.*1 /\ Forall (fun a => acc !! a = None) tasks.*1 ->
   exists table,
     foldl register_step (inr acc) tasks = inr table /\
     forall a h, table !! a = Some h <->
                 (acc !! a = Some h \/ (a, h) ∈ tasks)) /\
  (~ (NoDup tasks.*1 /\ Forall (fun a => acc !! a = None) tasks.*1) ->
   exists msg, foldl register_step (inr acc) tasks = inl (ValueError msg)).
Proof.
  revert acc. induction tasks as [|[a h] tasks IH]; intros acc.
  - split.
    + intros _. exists acc. split; [done|]. intros a h. split; [auto|].
      intros [H|H]; [done|]. by apply elem_of_nil in H.
    + intros Hnot. destruct Hnot. split; constructor.
  - cbn [foldl fmap list_fmap fst register_step].
    unfold register_task_action_handler.
    destruct (acc !! a) as [h0|] eqn:Hacc.
    + split.
      * intros [_ Hfree]. apply Forall_cons in Hfree as [Hfree _]. congruence.
      * intros _. rewrite register_step_inl. eauto.
    + destruct (IH (<[a := h]> acc)) as [IHok IHfail]. split.
      * intros [Hnodup Hfree].
        apply NoDup_cons in Hnodup as [Hnotin Hnodup].
        apply Forall_cons in Hfree as [_ Hfree].
        destruct IHok as (table & Hrun & Htable).
        { split; [done|]. apply Forall_forall. intros b Hb.
          rewrite lookup_insert_ne by (intros ->; done).
          exact (proj1 (Forall_forall _ _) Hfree b Hb). }
        exists table. split; [done|]. intros b hb. rewrite Htable.
        rewrite elem_of_cons. split.
        -- intros [Hb|Hb]; [|auto].
           apply lookup_insert_Some in Hb as [[<- <-]|[_ Hb]]; auto.
        -- intros [Hb|[[= -> ->]|Hb]]; [| |auto].
           ++ left. rewrite lookup_insert_ne; [done|]. intros <-. congruence.
           ++ left. apply lookup_insert_eq.
      * intros Hnot. apply IHfail. intros [Hnodup Hfree]. apply Hnot.
        assert (a ∉ tasks.*1) as Hnotin.
        { intros Hin.
          pose proof (proj1 (Forall_forall _ _) Hfree a Hin) as Hnone.
          cbv beta in Hnone. by rewrite lookup_insert_eq in Hnone. }
        split; [by apply NoDup_cons|].
        apply Forall_cons. split; [done|].
        apply Forall_forall. intros b Hb.
        pose proof (proj1 (Forall_forall _ _) Hfree b Hb) as Hnone.
        cbv beta in Hnone.
        rewrite lookup_insert_ne in Hnone; [done|]. intros <-. done.
Qed.

(** X10: the registration loop succeeds exactly on a list of tasks whose
    action names are pairwise distinct, and then the table binds each name
    to the handler listed with it and nothing else; with a repeated name
    the loop raises. *)
Theorem register_all_distinct (tasks : list (string * handler)) :
  (NoDup tasks.*1 ->
   exists table,
     register_all tasks = inr table /\
     forall a h, table !! a = Some h <-> (a, h) ∈ tasks) /\
  (~ NoDup tasks.*1 ->
   exists msg, register_all tasks = inl (ValueError msg)).
Proof.
  rewrite register_all_foldl.
  destruct (register_all_from tasks ∅) as [Hok Hfail]. split.
  - intros Hnodup. destruct Hok as (table & Hrun & Htable).
    { split; [done|]. apply Forall_forall. intros a _. apply lookup_empty. }
    exists table. split; [exact Hrun|]. intros a h. rewrite Htable.
    rewrite lookup_empty. split; [intros [H|H]; [done|exact H]|auto].
  - intros Hdup. apply Hfail. intros [Hnodup _]. by apply Hdup.
Qed.

Lemma register_all_distinct_witness :
  (exists table,
     register_all (TASKS example_runtime) = inr table /\
     table !! "command/run" = Some (task_command_run example_runtime)) /\
  (exists msg,
     register_all [ ("file/create", task_file_create example_runtime);
                    ("file/create", task_file_delete) ]
       = inl (ValueError msg)).
Proof.
  split.
  - destruct (proj1 (register_all_distinct (TASKS example_runtime)))
      as (table & Hrun & Htable).
    + apply (bool_decide_unpack _). reflexivity.
    + exists table. split; [exact Hrun|]. apply Htable.
      unfold TASKS. rewrite !elem_of_cons. do 3 right. by left.
  - apply (proj2 (register_all_distinct
                    [ ("file/create", task_file_create example_runtime);
                      ("file/create", task_file_delete) ])).
    intros Hnodup. apply NoDup_cons in Hnodup as [Hnotin _].
    apply Hnotin. cbn. rewrite elem_of_cons. by left.
Defined.

(** ** The dispatcher *)

(** X11: for a task with a truthy [id] whose [action] is a non-empty name
    the table binds, the dispatcher does what the bound handler does and
    nothing more: it returns the serialised envelope in the handler's final
    world, passes on the handler's exception, and blocks when the handler
    does. *)
Theorem run_task_dispatches (rt : runtime) (table : gmap string handler)
    (d : gmap string value) (a : string) (h : handler) (w : world) :
  truthy (default VNone (d !! "id")) = true ->
  d !! "action" = Some (VStr a) -> a <> "" ->
  table !! a = Some h ->
  run_task rt table (VDict d) w =
  match h (VDict d) w with
  | Ret r w' => Ret (json_dumps rt r) w'
  | Raise e w' => Raise e w'
  | Hang => Hang
  end.
Proof.
  intros Hid Haction Hne Hbound. unfold run_task.
  rewrite (dict_with_key_truthy d _ _ Haction). cbn [negb].
  unfold bind at 1. cbn [lift py_get ret]. rewrite Hid. cbn [negb].
  unfold bind at 1. cbn [lift py_get ret]. rewrite Haction.
  cbn [default from_option id]. unfold bind at 1.
  rewrite (proj2 (resolve_iff rt table (VStr a) h)) by eauto.
  cbn [lift ret]. unfold bind. by destruct (h (VDict d) w).
Qed.

Lemma run_task_dispatches_witness :
  run_task example_runtime (loaded_handlers example_runtime)
    (VDict delete_missing_task) example_world =
  match task_file_delete (VDict delete_missing_task) example_world with
  | Ret r w' => Ret (json_dumps example_runtime r) w'
  | Raise e w' => Raise e w'
  | Hang => Hang
  end.
Proof.
  apply (run_task_dispatches example_runtime
           (loaded_handlers example_runtime) delete_missing_task
           "file/delete" task_file_delete example_world).
  - reflexivity.
  - reflexivity.
  - discriminate.
  - reflexivity.
Defined.

(** X12: an [id] that is present but falsy (the number 0, the empty string,
    false, null, an empty list or mapping) is refused like a missing one:
    the dispatcher raises and no handler runs. *)
Theorem run_task_rejects_falsy_id (rt : runtime)
    (table : gmap string handler) (d : gmap string value) (v : value)
    (w : world) :
  d !! "id" = Some v -> truthy v = false ->
  run_task rt table (VDict d) w =
    Raise (ValueError "`task` must be have a `id` specified") w.
Proof.
  intros Hid Hfalsy. unfold run_task.
  rewrite (dict_with_key_truthy d _ _ Hid). cbn [negb].
  unfold bind at 1. cbn [lift py_get ret]. rewrite Hid.
  cbn [default from_option id]. by rewrite Hfalsy.
Qed.

Lemma run_task_rejects_falsy_id_witness :
  zero_id_task !! "id" = Some (VInt 0) /\
  run_task example_runtime (loaded_handlers example_runtime)
    (VDict zero_id_task) example_world =
    Raise (ValueError "`task` must be have a `id` specified") example_world.
Proof.
  split; [reflexivity|].
  apply (run_task_rejects_falsy_id example_runtime
           (loaded_handlers example_runtime) zero_id_task (VInt 0)
           example_world); reflexivity.
Defined.

Lemma loaded_handlers_lookup rt a h :
  loaded_handlers rt !! a = Some h ->
  In h (map snd (TASKS rt)).
Proof.
  destruct (proj1 (register_all_distinct (TASKS rt))) as (table & Hrun & Htable).
  { apply (bool_decide_unpack _). reflexivity. }
  unfold loaded_handlers. rewrite Hrun. intros Hbound.
  apply Htable in Hbound. apply list_elem_of_In in Hbound.
  change h with (snd (a, h)). by apply in_map.
Qed.

Lemma ends_mono {A} (m : io A) w (Q Q' : A -> world -> Prop)
    (E E' : world -> Prop) :
  ends m w Q E ->
  (forall a w', Q a w' -> Q' a w') -> (forall w', E w' -> E' w') ->
  ends m w Q' E'.
Proof. unfold ends. destruct (m w); auto. Qed.

Lemma only_listed_spawn_refl w : only_listed_spawn w w.
Proof. repeat split. by left. Qed.

Lemma handlers_spawn_only_listed rt h d w w' :
  In h (map snd (TASKS rt)) ->
  final_world (h (VDict d) w) = Some w' ->
  only_listed_spawn w w'.
Proof.
  simpl. intros [<-|[<-|[<-|[<-|[]]]]] Hend.
  - destruct (guarantees_final _ _ d w w' (file_create_guarantees rt d w)
                Hend) as [->|(s & n & _ & _ & _ & ->)];
      repeat split; by left.
  - destruct (guarantees_final _ _ d w w' (file_edit_guarantees rt d w)
                Hend) as [->|(s & old & bs & _ & _ & ->)];
      repeat split; by left.
  - destruct (guarantees_final _ _ d w w' (file_delete_guarantees d w)
                Hend) as [->|(s & fs' & _ & -> & _)];
      repeat split; by left.
  - destruct (guarantees_final _ _ d w w' (command_run_guarantees rt d w)
                Hend) as [->|(c & argv & cwd & env & fs' & Hin & ->)];
      [apply only_listed_spawn_refl|].
    split; [done|]. split; [done|]. right. by exists c, argv, cwd, env.
Qed.

(** X13: whatever task the dispatcher is given, and however it ends, it has
    started at most one process, and only a shell on a command of the
    allow-list; the server's working directory and environment are
    untouched. *)
Theorem dispatcher_spawns_only_listed (rt : runtime) (task : value)
    (w w' : world) :
  final_world (run_task rt (loaded_handlers rt) task w) = Some w' ->
  only_listed_spawn w w'.
Proof.
  apply (proj1 (ends_final _ w (only_listed_spawn w))).
  unfold run_task.
  destruct (truthy task); cbn [negb]; [|apply only_listed_spawn_refl].
  destruct task as [| | | | |d];
    try (apply ends_bind, ends_lift; apply only_listed_spawn_refl).
  repeat ends_step.
  destruct (truthy (default VNone (d !! "id"))); cbn [negb];
    [|apply only_listed_spawn_refl].
  repeat ends_step.
  destruct (get_task_action_handler _ _ _) as [e|h] eqn:Hresolve;
    [apply only_listed_spawn_refl|].
  apply resolve_iff in Hresolve as (a & _ & _ & Hbound).
  apply loaded_handlers_lookup in Hbound.
  ends_step.
  pose proof (handlers_spawn_only_listed rt h d w) as Hsafe.
  unfold ends, final_world in *.
  destruct (h (VDict d) w) as [r w1|e w1|]; [|by apply Hsafe|done].
  unfold ret. by apply Hsafe.
Qed.

Lemma dispatcher_spawns_only_listed_witness :
  exists w',
    final_world
      (run_task example_runtime (loaded_handlers example_runtime)
         (VDict git_status_task) example_world) = Some w' /\
    only_listed_spawn example_world w' /\
    w_spawned w' =
      [ {| p_argv := ["/bin/sh"; "-c"; "git"; "status"];
           p_cwd := "/srv"; p_env := {[ "HOME" := "/root" ]} |} ].
Proof.
  eexists. split; [reflexivity|]. split; [|reflexivity].
  apply (dispatcher_spawns_only_listed example_runtime
           (VDict git_status_task)). reflexivity.
Defined.

(** ** Handlers one after the other *)

Lemma set_fs_same w : set_fs w (w_fs w) = w.
Proof. by destruct w. Qed.

Lemma set_fs_set_fs w fs1 fs2 : set_fs (set_fs w fs1) fs2 = set_fs w fs2.
Proof. reflexivity. Qed.

Lemma fresh_path_has_tail (fs : gmap string node) p :
  fs !! path_str p = None -> fs !! path_str (parent p) = Some Dir ->
  tail p <> [].
Proof.
  intros Hfresh Hparent Htail. unfold parent in Hparent.
  rewrite Htail in Hparent. congruence.
Qed.

(** X14: a successful file/create followed by file/delete at the same path,
    where nothing lay below that path, gives back exactly the world before
    the two. *)
Theorem create_then_delete_restores (rt : runtime)
    (d1 d2 : gmap string value) (w w1 : world) (s : string) (r1 : value) :
  d1 !! "path" = Some (VStr s) ->
  d2 !! "path" = Some (VStr s) ->
  (forall k, is_under (Path s) (Path k) = true -> w_fs w !! k = None) ->
  task_file_create rt (VDict d1) w = Ret r1 w1 ->
  is_success r1 ->
  exists r2,
    task_file_delete (VDict d2) w1 = Ret r2 w /\
    correlates d2 r2 /\ is_success r2.
Proof.
  intros Hpath1 Hpath2 Hbelow Hcreate Hok.
  destruct (guarantees_success _ _ d1 w r1 w1
              (file_create_guarantees rt d1 w) Hcreate Hok)
    as (s' & n & Hpath & Hfresh & Hparent & ->).
  assert (s' = s) as -> by congruence.
  rewrite (file_delete_prefix d2 _ s Hpath2).
  cbn [set_fs w_fs]. rewrite lookup_insert_eq.
  assert (set_fs
            (set_fs w (<[path_str (Path s) := n]> (w_fs w)))
            (delete (path_str (Path s))
               (<[path_str (Path s) := n]> (w_fs w))) = w) as Hback.
  { rewrite set_fs_set_fs, delete_insert_eq, delete_id by done.
    apply set_fs_same. }
  destruct n as [bs|].
  - unfold bind at 1, unlink. cbn [set_fs w_fs]. rewrite lookup_insert_eq.
    rewrite Hback, make_task_success_dict. eexists.
    split; [reflexivity|]. split; split; reflexivity.
  - unfold bind at 1, rmtree. cbn [set_fs w_fs]. rewrite lookup_insert_eq.
    destruct (tail (Path s)) as [|x t] eqn:Htail.
    { by destruct (fresh_path_has_tail (w_fs w) (Path s)). }
    assert (delete (path_str (Path s))
              (filter (fun kv => is_under (Path s) (Path kv.1) = false)
                 (<[path_str (Path s) := Dir]> (w_fs w))) = w_fs w) as ->.
    { apply map_eq. intros k.
      destruct (decide (k = path_str (Path s))) as [->|Hne].
      - by rewrite lookup_delete_eq.
      - rewrite lookup_delete_ne by done.
        destruct (w_fs w !! k) as [x'|] eqn:Hk.
        + apply map_lookup_filter_Some_2.
          * by rewrite lookup_insert_ne.
          * simpl. destruct (is_under (Path s) (Path k)) eqn:Hunder; [|done].
            rewrite (Hbelow k Hunder) in Hk. discriminate.
        + apply map_lookup_filter_None_2. left.
          by rewrite lookup_insert_ne. }
    rewrite set_fs_set_fs, set_fs_same, make_task_success_dict. eexists.
    split; [reflexivity|]. split; split; reflexivity.
Qed.

Lemma nothing_below (fs : gmap string node) (p : PosixPath) :
  map_Forall (fun k _ => is_under p (Path k) = false) fs ->
  forall k, is_under p (Path k) = true -> fs !! k = None.
Proof.
  intros Hall k Hunder. destruct (fs !! k) as [n|] eqn:Hk; [|done].
  pose proof (Hall k n Hk) as Hnot. simpl in Hnot. congruence.
Qed.

Lemma example_world_nothing_below_sub :
  forall k, is_under (Path "/tmp/x/sub") (Path k) = true ->
            w_fs example_world !! k = None.
Proof.
  apply nothing_below. apply map_Forall_to_list.
  vm_compute. repeat constructor.
Qed.

Lemma create_then_delete_restores_witness :
  let w1 := set_fs example_world
              (<["/tmp/x/sub" := Dir]> (w_fs example_world)) in
  exists r1 r2,
    task_file_create example_runtime (VDict create_directory_task)
      example_world = Ret r1 w1 /\
    task_file_delete (VDict delete_new_directory_task) w1 =
      Ret r2 example_world.
Proof.
  intros w1.
  destruct (create_then_delete_restores example_runtime
              create_directory_task delete_new_directory_task
              example_world w1 "/tmp/x/sub"
              (VDict {[ "id" := VStr "2"; "action" := VStr "file/create";
                        "success" := VBool true ]})
              eq_refl eq_refl example_world_nothing_below_sub eq_refl)
    as (r2 & Hdelete & _).
  - split; reflexivity.
  - eexists _, r2. split; [reflexivity|exact Hdelete].
Defined.

(** X15: after a successful file/create, a second file/create at the same
    path, whatever its content, is answered with the [already exists]
    error and leaves what the first one made. *)
Theorem create_twice_keeps_first (rt : runtime)
    (d1 d2 : gmap string value) (w w1 : world) (s : string) (r1 : value) :
  d1 !! "path" = Some (VStr s) ->
  d2 !! "path" = Some (VStr s) ->
  task_file_create rt (VDict d1) w = Ret r1 w1 ->
  is_success r1 ->
  exists r2,
    task_file_create rt (VDict d2) w1 = Ret r2 w1 /\
    correlates d2 r2 /\
    is_error r2 "argument"
      ("A file or directory at path `" ++ path_str (Path s) ++
       "` already exists").
Proof.
  intros Hpath1 Hpath2 Hcreate Hok.
  destruct (guarantees_success _ _ d1 w r1 w1
              (file_create_guarantees rt d1 w) Hcreate Hok)
    as (s' & n & Hpath & Hfresh & Hparent & ->).
  assert (s' = s) as -> by congruence.
  rewrite (file_create_existing rt d2 _ s n Hpath2)
    by (cbn [set_fs w_fs]; apply lookup_insert_eq).
  rewrite make_task_error_dict. eexists.
  split; [reflexivity|]. repeat split.
Qed.

Lemma create_twice_keeps_first_witness :
  let w1 := set_fs example_world
              (<["/tmp/x/a.txt" := File (list_byte_of_string "hi")]>
                 (w_fs example_world)) in
  exists r1 r2,
    task_file_create example_runtime (VDict create_file_task)
      example_world = Ret r1 w1 /\
    task_file_create example_runtime (VDict create_without_value_task) w1 =
      Ret r2 w1 /\
    is_error r2 "argument"
      "A file or directory at path `/tmp/x/a.txt` already exists".
Proof.
  intros w1.
  destruct (create_twice_keeps_first example_runtime create_file_task
              create_without_value_task example_world w1 "/tmp/x/a.txt"
              (VDict {[ "id" := VStr "1"; "action" := VStr "file/create";
                        "success" := VBool true ]})
              eq_refl eq_refl eq_refl) as (r2 & Hsecond & _ & Herr).
  - split; reflexivity.
  - eexists _, r2. split; [reflexivity|]. split; [exact Hsecond|exact Herr].
Defined.

(** X16: the last edit wins: after any successful file/edit, a file/edit at
    the same path with a well-formed content ends in the very world it
    would have ended in without the first one. *)
Theorem edit_after_edit (rt : runtime) (d1 d2 c : gmap string value)
    (w w1 : world) (s v e : string) (enc : string -> option (list byte))
    (bs : list byte) (r1 : value) :
  d1 !! "path" = Some (VStr s) ->
  d2 !! "path" = Some (VStr s) ->
  d2 !! "content" = Some (VDict c) ->
  c !! "value" = Some (VStr v) ->
  content_encoding c = VStr e ->
  lookup_codec rt e = Some enc ->
  enc v = Some bs ->
  task_file_edit rt (VDict d1) w = Ret r1 w1 ->
  is_success r1 ->
  exists r2,
    task_file_edit rt (VDict d2) w1 =
      Ret r2 (set_fs w (<[path_str (Path s) := File bs]> (w_fs w))) /\
    task_file_edit rt (VDict d2) w =
      Ret r2 (set_fs w (<[path_str (Path s) := File bs]> (w_fs w))) /\
    is_success r2.
Proof.
  intros Hpath1 Hpath2 Hcontent Hvalue Hencoding Hcodec Henc Hedit Hok.
  destruct (guarantees_success _ _ d1 w r1 w1
              (file_edit_guarantees rt d1 w) Hedit Hok)
    as (s' & old & bs1 & Hpath & Hfile & ->).
  assert (s' = s) as -> by congruence.
  rewrite (file_edit_write rt d2 _ s bs1 c v e enc bs)
    by (try done; cbn [set_fs w_fs]; apply lookup_insert_eq).
  rewrite (file_edit_write rt d2 w s old c v e enc bs) by done.
  cbn [set_fs w_fs]. rewrite set_fs_set_fs, insert_insert_eq.
  rewrite make_task_success_dict. eexists.
  split; [reflexivity|]. split; [reflexivity|]. split; reflexivity.
Qed.

Lemma edit_after_edit_witness :
  let w1 := set_fs example_world
              (<["/tmp/x/old.txt" := File (list_byte_of_string "new")]>
                 (w_fs example_world)) in
  let w2 := set_fs example_world
              (<["/tmp/x/old.txt" := File (list_byte_of_string "newer")]>
                 (w_fs example_world)) in
  exists r1 r2,
    task_file_edit example_runtime (VDict edit_file_task) example_world =
      Ret r1 w1 /\
    task_file_edit example_runtime (VDict edit_again_task) w1 = Ret r2 w2 /\
    task_file_edit example_runtime (VDict edit_again_task) example_world =
      Ret r2 w2.
Proof.
  intros w1 w2.
  destruct (edit_after_edit example_runtime edit_file_task edit_again_task
              {[ "value" := VStr "newer" ]} example_world w1
              "/tmp/x/old.txt" "newer" "utf-8" encode_utf8
              (list_byte_of_string "newer")
              (VDict {[ "id" := VStr "6"; "action" := VStr "file/edit";
                        "success" := VBool true ]})
              eq_refl eq_refl eq_refl eq_refl eq_refl eq_refl eq_refl
              eq_refl) as (r2 & Hafter & Halone & _).
  - split; reflexivity.
  - eexists _, r2. split; [reflexivity|]. split; [exact Hafter|exact Halone].
Defined.

(** ** command/run: exit status and arguments *)

Lemma str_list_strings argv :
  forallb (fun a => negb (has_nul a)) argv = true ->
  str_list (map VStr argv) = inr argv.
Proof.
  induction argv as [|a argv IH]; [done|]. cbn.
  intros [Ha Hrest]%andb_prop. apply negb_true_iff in Ha.
  by rewrite Ha, (IH Hrest).
Qed.

Lemma str_list_first_refused pre x post :
  forallb (fun a => negb (has_nul a)) pre = true ->
  str_value x = None ->
  str_list (map VStr pre ++ x :: post) = inl TypeError.
Proof.
  intros Hpre Hx. induction pre as [|a pre IH]; cbn.
  - by rewrite Hx.
  - cbn in Hpre. apply andb_prop in Hpre as [Ha Hrest].
    apply negb_true_iff in Ha. by rewrite Ha, (IH Hrest).
Qed.

(** What [subprocess] refuses, it refuses before it starts anything: a
    name of the environment that holds [=], and an argument that holds the
    byte 0, which comes before a later argument that is not a string. *)
Example equals_in_name_is_refused :
  task_command_run example_runtime (VDict equals_in_name_task)
    example_world =
    Raise (ValueError "illegal environment variable name") example_world.
Proof. reflexivity. Qed.

Example nul_argument_is_refused :
  task_command_run example_runtime (VDict nul_argument_task)
    example_world = Raise (ValueError "embedded null byte") example_world.
Proof. reflexivity. Qed.

Lemma env_refusal_none items :
  Forall (fun kv : string * value =>
            has_char "=" kv.1 = false /\ is_Some (str_value kv.2)) items ->
  env_refusal items = None.
Proof.
  induction 1 as [|[name v] items [Hname [t Ht]] _ IH]; [done|].
  simpl in *. by rewrite Hname, Ht.
Qed.

(** An accepted environment passes both checks of [subprocess], whatever
    the order of its items. *)
Lemma accepted_env_passes rt env environ child_env :
  accepted_env env environ child_env ->
  env_arg rt env environ = inr child_env /\ env_c_strings env = true.
Proof.
  destruct env as [| | | | |e]; try done.
  - by intros ->.
  - intros [Hall ->]. apply map_Forall_to_list in Hall.
    rewrite Forall_forall in Hall. split.
    + cbn [env_arg]. rewrite env_refusal_none; [done|].
      apply Forall_forall. intros [name v] Hin.
      rewrite (dict_items_listing rt e) in Hin.
      destruct (Hall _ Hin) as (Hname & _ & t & -> & _). by split; [|eexists].
    + cbn [env_c_strings]. apply forallb_forall. intros [name v] Hin.
      apply list_elem_of_In in Hin.
      destruct (Hall _ Hin) as (_ & Hnul & t & -> & Ht). simpl in *.
      by rewrite Hnul, Ht.
Qed.

(** X17: for a listed command whose arguments, environment and directory
    [subprocess] accepts (string arguments without the byte 0; no
    environment, or a mapping of strings whose names hold no [=] and which
    holds no byte 0; no path, or one that names a directory) and which
    together are small enough for [execve] on any host, the handler runs
    one child and its answer is the child's exit status: status zero
    gives a success envelope, any other status raises [CalledProcessError]
    instead of returning an envelope, and a child that never exits blocks
    the handler for ever.  What the child did to the file system stays,
    also when it failed. *)
Theorem command_run_exit_status (rt : runtime) (d : gmap string value)
    (w : world) (c : string) (argv : list string)
    (child_env : gmap string string) (child_cwd : string) :
  d !! "command" = Some (VStr c) -> In c SAFE_COMMANDS ->
  default (VList []) (d !! "arguments") = VList (map VStr argv) ->
  forallb (fun a => negb (has_nul a)) argv = true ->
  accepted_env (default VNone (d !! "environment")) (w_environ w)
    child_env ->
  cwd_arg (default VNone (d !! "path")) w = inr child_cwd ->
  let p := {| p_argv := "/bin/sh" :: "-c" :: c :: argv;
              p_cwd := child_cwd;
              p_env := child_env |} in
  (exec_size p <= ARG_MAX)%N ->
  (run_child rt p (w_fs w) = None ->
   task_command_run rt (VDict d) w = Hang) /\
  (forall fs', run_child rt p (w_fs w) = Some (0%Z, fs') ->
   exists r,
     task_command_run rt (VDict d) w =
       Ret r (set_fs (log_spawn w p) fs') /\
     correlates d r /\ is_success r) /\
  (forall code fs', run_child rt p (w_fs w) = Some (code, fs') ->
   code <> 0%Z ->
   task_command_run rt (VDict d) w =
     Raise (CalledProcessError code) (set_fs (log_spawn w p) fs')).
Proof.
  intros Hcmd Hin Hargs Hargv Haccepted Hcwd p _.
  destruct (accepted_env_passes rt _ _ _ Haccepted) as [Henv Hnul].
  rewrite (command_run_spawns rt d w c (map VStr argv) argv child_env
             child_cwd Hcmd Hin Hargs (str_list_strings argv Hargv) Henv
             Hnul Hcwd).
  fold p. split; [|split].
  - by intros ->.
  - intros fs' ->. cbn [Z.eqb]. rewrite make_task_success_dict. eexists.
    split; [reflexivity|]. split; split; reflexivity.
  - intros code fs' -> Hcode.
    by destruct (Z.eqb_spec code 0).
Qed.

Lemma command_run_exit_status_witness :
  let p := {| p_argv := ["/bin/sh"; "-c"; "git"; "status"];
              p_cwd := "/srv"; p_env := {[ "HOME" := "/root" ]} |} in
  let q := {| p_argv := ["/bin/sh"; "-c"; "git"; "status"];
              p_cwd := "/tmp/x"; p_env := {[ "LANG" := "C" ]} |} in
  (exists r,
     task_command_run example_runtime (VDict git_status_task)
       example_world =
       Ret r (set_fs (log_spawn example_world p) (w_fs example_world)) /\
     is_success r) /\
  task_command_run failing_runtime (VDict git_status_task) example_world =
    Raise (CalledProcessError 1)
      (set_fs (log_spawn example_world p) (w_fs example_world)) /\
  (exists r,
     task_command_run example_runtime
       (VDict git_in_clean_environment_task) example_world =
       Ret r (set_fs (log_spawn example_world q) (w_fs example_world)) /\
     is_success r).
Proof.
  intros p q.
  assert (In "git" SAFE_COMMANDS) as Hin
    by (unfold SAFE_COMMANDS; simpl; tauto).
  split; [|split].
  - destruct (command_run_exit_status example_runtime git_status_task
                example_world "git" ["status"] {[ "HOME" := "/root" ]}
                "/srv" eq_refl Hin eq_refl eq_refl eq_refl eq_refl)
      as (_ & Hzero & _); [by vm_compute|].
    destruct (Hzero (w_fs example_world) eq_refl) as (r & Hrun & _ & Hok).
    exists r. split; [exact Hrun|exact Hok].
  - destruct (command_run_exit_status failing_runtime git_status_task
                example_world "git" ["status"] {[ "HOME" := "/root" ]}
                "/srv" eq_refl Hin eq_refl eq_refl eq_refl eq_refl)
      as (_ & _ & Hfail); [by vm_compute|].
    apply (Hfail 1%Z (w_fs example_world) eq_refl). discriminate.
  - assert (accepted_env (VDict {[ "LANG" := VStr "C" ]})
              (w_environ example_world) {[ "LANG" := "C" ]}) as Haccepted.
    { split; [|reflexivity]. apply map_Forall_singleton.
      split; [reflexivity|]. split; [reflexivity|].
      exists "C". split; reflexivity. }
    destruct (command_run_exit_status example_runtime
                git_in_clean_environment_task example_world "git"
                ["status"] {[ "LANG" := "C" ]} "/tmp/x"
                eq_refl Hin eq_refl eq_refl Haccepted eq_refl)
      as (_ & Hzero & _); [by vm_compute|].
    destruct (Hzero (w_fs example_world) eq_refl) as (r & Hrun & _ & Hok).
    exists r. split; [exact Hrun|exact Hok].
Defined.

(** X18: for a listed command, an [arguments] that is given but is not a
    list makes the handler raise [TypeError]; so does a list whose first
    item that is not a string without the byte 0 is not a string at all,
    when no environment is given.  No process is started and the world is
    as it was. *)
Theorem command_run_bad_arguments (rt : runtime) (d : gmap string value)
    (w : world) (c : string) (v : value) :
  d !! "command" = Some (VStr c) -> In c SAFE_COMMANDS ->
  d !! "arguments" = Some v ->
  (forall l, v <> VList l) \/
  (exists pre x post,
     v = VList (map VStr pre ++ x :: post) /\
     forallb (fun a => negb (has_nul a)) pre = true /\
     str_value x = None /\
     default VNone (d !! "environment") = VNone) ->
  task_command_run rt (VDict d) w = Raise TypeError w.
Proof.
  intros Hcmd Hin Hargs Hbad.
  rewrite (command_run_listed rt d w c Hcmd Hin), Hargs.
  cbn [default from_option id]. unfold bind at 1.
  destruct Hbad as [Hnot|(pre & x & post & -> & Hpre & Hx & Henv)].
  - destruct v as [| | | |l|]; try reflexivity. by destruct (Hnot l).
  - cbn [lift list_add ret]. unfold bind at 1, subprocess_run.
    rewrite Henv. cbn [env_arg].
    change ([VStr c] ++ map VStr pre ++ x :: post)%list
      with (map VStr (c :: pre) ++ x :: post)%list.
    rewrite (str_list_first_refused (c :: pre) x post); [done| |done].
    cbn [forallb]. by rewrite (listed_no_nul c Hin), Hpre.
Qed.

Lemma command_run_bad_arguments_witness :
  task_command_run example_runtime (VDict null_arguments_task)
    example_world = Raise TypeError example_world /\
  task_command_run example_runtime (VDict number_argument_task)
    example_world = Raise TypeError example_world.
Proof.
  assert (In "git" SAFE_COMMANDS) as Hin
    by (unfold SAFE_COMMANDS; simpl; tauto).
  split.
  - apply (command_run_bad_arguments example_runtime null_arguments_task
             example_world "git" VNone eq_refl Hin eq_refl).
    left. intros l. discriminate.
  - apply (command_run_bad_arguments example_runtime number_argument_task
             example_world "git" (VList [VStr "log"; VInt 1]) eq_refl Hin
             eq_refl).
    right. exists ["log"], (VInt 1), [].
    split; [reflexivity|]. split; [reflexivity|].
    split; reflexivity.
Defined.

(** ** Tasks and contents of the wrong shape *)

(** X19: the guard [if not task] of the handlers answers the empty mapping
    only: on it every handler returns the [`task` must be specified] error
    with null [id] and [action]; on any other falsy task (null, false, 0,
    an empty string or list) the error builder itself raises
    [AttributeError]. *)
Theorem falsy_task_guard (rt : runtime) (h : handler) (task : value)
    (w : world) :
  In h (map snd (TASKS rt)) ->
  truthy task = false ->
  (task = VDict ∅ /\
   exists r, h task w = Ret r w /\
             is_error r "argument" "`task` must be specified" /\
             field r "id" = Some VNone /\ field r "action" = Some VNone) \/
  ((forall d, task <> VDict d) /\ h task w = Raise AttributeError w).
Proof.
  simpl. intros Hh Hfalsy.
  assert (forall h' : handler,
            (forall t, h' t = if negb (truthy t)
                              then make_task_error t "argument"
                                     "`task` must be specified"
                              else h' t) ->
            (task = VDict ∅ /\
             exists r, h' task w = Ret r w /\
                       is_error r "argument" "`task` must be specified" /\
                       field r "id" = Some VNone /\
                       field r "action" = Some VNone) \/
            ((forall d, task <> VDict d) /\
             h' task w = Raise AttributeError w)) as Hguard.
  { intros h' Hh'. rewrite Hh', Hfalsy. cbn [negb].
    destruct task as [| | | | |d]; try (right; split; [done|reflexivity]).
    left. simpl in Hfalsy. apply negb_false_iff, Nat.eqb_eq in Hfalsy.
    apply map_size_empty_iff in Hfalsy as ->. split; [done|].
    eexists. split; [reflexivity|]. repeat split. }
  destruct Hh as [<-|[<-|[<-|[<-|[]]]]]; apply Hguard; intros t.
  - unfold task_file_create. by destruct (negb (truthy t)).
  - unfold task_file_edit. by destruct (negb (truthy t)).
  - unfold task_file_delete. by destruct (negb (truthy t)).
  - unfold task_command_run. by destruct (negb (truthy t)).
Qed.

Lemma falsy_task_guard_witness :
  (exists r,
     task_file_delete (VDict ∅) example_world = Ret r example_world /\
     is_error r "argument" "`task` must be specified") /\
  task_file_delete VNone example_world =
    Raise AttributeError example_world.
Proof.
  split.
  - destruct (falsy_task_guard example_runtime task_file_delete (VDict ∅)
                example_world) as [(_ & r & Hrun & Herr & _)|[Hshape _]].
    + simpl. tauto.
    + reflexivity.
    + exists r. split; [exact Hrun|exact Herr].
    + destruct (Hshape ∅ eq_refl).
  - destruct (falsy_task_guard example_runtime task_file_delete VNone
                example_world) as [[Hshape _]|[_ Hrun]].
    + simpl. tauto.
    + reflexivity.
    + discriminate.
    + exact Hrun.
Defined.

(** X20: a content that is truthy but not a mapping (a bare string, say)
    makes file/create at a fresh path, canonically spelled, and file/edit
    on an existing file raise [AttributeError] before anything is opened:
    nothing is created, nothing is truncated. *)
Theorem non_mapping_content_raises (rt : runtime) (d : gmap string value)
    (w : world) (s : string) (content : value) :
  d !! "path" = Some (VStr s) ->
  d !! "content" = Some content ->
  truthy content = true ->
  (forall c, content <> VDict c) ->
  (canonical (Path s) = true ->
   w_fs w !! path_str (Path s) = None ->
   task_file_create rt (VDict d) w = Raise AttributeError w) /\
  (forall old, w_fs w !! path_str (Path s) = Some (File old) ->
   task_file_edit rt (VDict d) w = Raise AttributeError w).
Proof.
  intros Hpath Hcontent Htruthy Hshape. split.
  - intros _ Hfresh.
    rewrite (file_create_fresh_prefix rt d w s Hpath Hfresh), Hcontent.
    cbn [default from_option id]. rewrite Htruthy. cbn [negb].
    unfold bind at 1. unfold bind at 1.
    destruct content; try reflexivity. by destruct (Hshape d0).
  - intros old Hfile.
    rewrite (file_edit_prefix rt d w s Hpath), Hfile, Hcontent.
    cbn [default from_option id]. rewrite Htruthy.
    unfold bind at 1.
    destruct content; try reflexivity. by destruct (Hshape d0).
Qed.

Lemma non_mapping_content_raises_witness :
  (task_file_create example_runtime (VDict create_bare_string_task)
     example_world = Raise AttributeError example_world /\
   w_fs example_world !! "/tmp/x/a.txt" = None) /\
  (task_file_edit example_runtime (VDict edit_bare_string_task)
     example_world = Raise AttributeError example_world /\
   w_fs example_world !! "/tmp/x/old.txt" =
     Some (File (list_byte_of_string "old"))).
Proof.
  split; (split; [|reflexivity]).
  - destruct (non_mapping_content_raises example_runtime
                create_bare_string_task example_world "/tmp/x/a.txt"
                (VStr "new") eq_refl eq_refl eq_refl) as [Hcreate _].
    + discriminate.
    + apply Hcreate; reflexivity.
  - destruct (non_mapping_content_raises example_runtime
                edit_bare_string_task example_world "/tmp/x/old.txt"
                (VStr "new") eq_refl eq_refl eq_refl) as [_ Hedit].
    + discriminate.
    + apply (Hedit (list_byte_of_string "old")). reflexivity.
Defined.

(** An encoding name that holds the byte 0 is refused by [open] before it
    opens anything: the file keeps its bytes. *)
Example nul_encoding_is_refused_before_open :
  task_file_edit example_runtime (VDict edit_nul_encoding_task)
    example_world =
    Raise (ValueError "embedded null character") example_world.
Proof. reflexivity. Qed.

(** X21: file/edit destroys before it writes: when the encoding the content
    names is unknown (and holds no byte 0: a name that does is refused by
    [open] before it opens anything), or cannot represent the value, the
    handler raises ([LookupError], [UnicodeEncodeError]) after the file has
    been opened for writing, so the old bytes are gone and the file is
    empty. *)
Theorem failed_edit_truncates (rt : runtime) (d c : gmap string value)
    (w : world) (s e : string) (old : list byte) :
  d !! "path" = Some (VStr s) ->
  d !! "content" = Some (VDict c) ->
  truthy (VDict c) = true ->
  content_encoding c = VStr e ->
  w_fs w !! path_str (Path s) = Some (File old) ->
  (has_nul e = false -> lookup_codec rt e = None ->
   task_file_edit rt (VDict d) w =
     Raise LookupError
       (set_fs w (<[path_str (Path s) := File []]> (w_fs w)))) /\
  (forall enc v,
     lookup_codec rt e = Some enc -> c !! "value" = Some (VStr v) ->
     enc v = None ->
     task_file_edit rt (VDict d) w =
       Raise UnicodeEncodeError
         (set_fs w (<[path_str (Path s) := File []]> (w_fs w)))).
Proof.
  intros Hpath Hcontent Htruthy Hencoding Hfile.
  rewrite (file_edit_prefix rt d w s Hpath), Hfile, Hcontent.
  cbn [default from_option id]. rewrite Htruthy.
  unfold open_w, open_raw_w, write.
  set (k := path_str (Path s)) in *. clearbody k.
  unfold bind, lift, py_get, ret, raise.
  fold (content_encoding c). rewrite Hencoding. split.
  - intros Hnul Hcodec. cbn [encoding_arg]. by rewrite Hnul, Hfile, Hcodec.
  - intros enc v Hcodec Hvalue Henc.
    rewrite (encoding_arg_known rt e enc Hcodec), Hfile, Hcodec, Hvalue.
    cbn [default from_option id f_encode f_key]. by rewrite Henc.
Qed.

Lemma failed_edit_truncates_witness :
  exists w',
    task_file_edit example_runtime (VDict edit_unknown_encoding_task)
      example_world = Raise LookupError w' /\
    w_fs example_world !! "/tmp/x/old.txt" =
      Some (File (list_byte_of_string "old")) /\
    w_fs w' !! "/tmp/x/old.txt" = Some (File []).
Proof.
  destruct (failed_edit_truncates example_runtime
              edit_unknown_encoding_task
              {[ "value" := VStr "new"; "encoding" := VStr "klingon" ]}
              example_world "/tmp/x/old.txt" "klingon"
              (list_byte_of_string "old")
              eq_refl eq_refl eq_refl eq_refl eq_refl) as [Hunknown _].
  eexists. split; [apply Hunknown; reflexivity|]. split; reflexivity.
Defined.
